(** * Verification of the Ethereum client of the Pantos validator node

    Shallow embedding of [pantos/validatornode/blockchains/ethereum.py]:
    the canonical transferTo message, the transaction id check, the reading
    of outgoing transfers in block chunks, the mapping of TransferFrom
    events, and the error handling of the transferTo submission. *)

From Stdlib Require Import ZArith Lia Bool Ascii String.
From Stdlib Require Import List DecimalString.
From stdpp Require Import base option list gmap strings.

Local Open Scope Z_scope.

(** ** Bytes and hexadecimal text *)

Definition bytes := list Byte.byte.

Definition Z_of_byte (b : Byte.byte) : Z := Z.of_N (Byte.to_N b).

Definition byte_of_Z (z : Z) : Byte.byte :=
  match Byte.of_N (Z.to_N (z mod 256)) with
  | Some b => b
  | None => Byte.x00
  end.

Definition bytes_of_string (s : string) : bytes := list_byte_of_string s.

(** Big-endian encoding of [z] on [n] bytes. *)
Fixpoint be_bytes (n : nat) (z : Z) : bytes :=
  match n with
  | O => []
  | S n' => be_bytes n' (z / 256) ++ [byte_of_Z z]
  end.

(** Little-endian encoding of [z] on [n] bytes, and its inverse. *)
Fixpoint le_bytes (n : nat) (z : Z) : bytes :=
  match n with
  | O => []
  | S n' => byte_of_Z z :: le_bytes n' (z / 256)
  end.

Fixpoint le_value (bs : bytes) : Z :=
  match bs with
  | [] => 0
  | b :: bs' => Z_of_byte b + 256 * le_value bs'
  end.

Definition hex_digit (n : Z) : ascii :=
  if n <? 10 then ascii_of_N (Z.to_N (48 + n))
  else ascii_of_N (Z.to_N (87 + n)).

Definition hex_value (c : ascii) : option Z :=
  let n := Z.of_N (N_of_ascii c) in
  if (48 <=? n) && (n <=? 57) then Some (n - 48)
  else if (97 <=? n) && (n <=? 102) then Some (n - 87)
  else if (65 <=? n) && (n <=? 70) then Some (n - 55)
  else None.

Fixpoint hex_of_bytes (bs : bytes) : string :=
  match bs with
  | [] => EmptyString
  | b :: bs' =>
      String (hex_digit (Z_of_byte b / 16))
        (String (hex_digit (Z_of_byte b mod 16)) (hex_of_bytes bs'))
  end.

Fixpoint bytes_of_hex (s : string) : option bytes :=
  match s with
  | EmptyString => Some []
  | String c1 (String c2 s') =>
      match hex_value c1, hex_value c2, bytes_of_hex s' with
      | Some h, Some l, Some bs => Some (byte_of_Z (16 * h + l) :: bs)
      | _, _, _ => None
      end
  | String _ EmptyString => None
  end.

(** ** Keccak-256

    [web3.Web3.solidity_keccak] hashes with Keccak-256 (rate 136 bytes, pad
    byte 0x01).  The state is 25 lanes of 64 bits, lane (x, y) at index
    x + 5 y. *)

Module Keccak.

Definition mask64 : Z := 2 ^ 64 - 1.

Definition rotl64 (v n : Z) : Z :=
  Z.land (Z.lor (Z.shiftl v n) (Z.shiftr v (64 - n))) mask64.

Definition lane (st : list Z) (x y : nat) : Z :=
  nth (x mod 5 + 5 * (y mod 5))%nat st 0.

Definition round_constants : list Z :=
  [ 0x0000000000000001; 0x0000000000008082; 0x800000000000808A;
    0x8000000080008000; 0x000000000000808B; 0x0000000080000001;
    0x8000000080008081; 0x8000000000008009; 0x000000000000008A;
    0x0000000000000088; 0x0000000080008009; 0x000000008000000A;
    0x000000008000808B; 0x800000000000008B; 0x8000000000008089;
    0x8000000000008003; 0x8000000000008002; 0x8000000000000080;
    0x000000000000800A; 0x800000008000000A; 0x8000000080008081;
    0x8000000000008080; 0x0000000080000001; 0x8000000080008008 ].

Definition rotation_offsets : list Z :=
  [ 0; 1; 62; 28; 27;
    36; 44; 6; 55; 20;
    3; 10; 43; 25; 39;
    41; 45; 15; 21; 8;
    18; 2; 61; 56; 14 ].

Definition positions : list (nat * nat) :=
  map (fun i => (i mod 5, i / 5)%nat) (seq 0 25).

Definition theta (st : list Z) : list Z :=
  let c x := fold_left Z.lxor (map (lane st x) (seq 0 5)) 0 in
  let d x := Z.lxor (c (x + 4)%nat) (rotl64 (c (x + 1)%nat) 1) in
  map (fun '(x, y) => Z.lxor (lane st x y) (d x)) positions.

Definition rho_pi (st : list Z) : list Z :=
  map (fun '(x, y) =>
         let x0 := ((x + 3 * y) mod 5)%nat in
         let y0 := x in
         rotl64 (lane st x0 y0) (nth (x0 + 5 * y0)%nat rotation_offsets 0))
      positions.

Definition chi (st : list Z) : list Z :=
  map (fun '(x, y) =>
         Z.lxor (lane st x y)
           (Z.land (Z.lxor (lane st (x + 1) y) mask64) (lane st (x + 2) y)))
      positions.

Definition iota (rc : Z) (st : list Z) : list Z :=
  match st with
  | [] => []
  | l :: st' => Z.lxor l rc :: st'
  end.

Definition round (st : list Z) (rc : Z) : list Z :=
  iota rc (chi (rho_pi (theta st))).

Definition permute (st : list Z) : list Z :=
  fold_left round round_constants st.

Definition rate : nat := 136.

Definition pad (msg : bytes) : bytes :=
  let q := (rate - length msg mod rate)%nat in
  if (q =? 1)%nat then msg ++ [Byte.x81]
  else msg ++ [Byte.x01] ++ repeat Byte.x00 (q - 2) ++ [Byte.x80].

Fixpoint lanes_of_block (n : nat) (block : bytes) : list Z :=
  match n with
  | O => []
  | S n' => le_value (firstn 8 block) :: lanes_of_block n' (skipn 8 block)
  end.

Fixpoint xor_lanes (st block : list Z) : list Z :=
  match st, block with
  | l :: st', b :: block' => Z.lxor l b :: xor_lanes st' block'
  | _, _ => st
  end.

Fixpoint absorb (fuel : nat) (st : list Z) (msg : bytes) : list Z :=
  match fuel, msg with
  | S fuel', _ :: _ =>
      absorb fuel'
        (permute (xor_lanes st (lanes_of_block 17 (firstn rate msg))))
        (skipn rate msg)
  | _, _ => st
  end.

Definition keccak256 (msg : bytes) : bytes :=
  let padded := pad msg in
  let st := absorb (length padded) (repeat 0 25) padded in
  flat_map (le_bytes 8) (firstn 4 st).

End Keccak.


(** ** Domain data *)

(** The blockchain enumeration of [pantos.common.blockchains.enums] with the
    integer value of each member ([Blockchain.value], [Blockchain(id)]). *)
Inductive Blockchain :=
| ETHEREUM | BNB_CHAIN | DECOMMISSIONED_1 | AVALANCHE | SOLANA
| POLYGON | CRONOS | FANTOM | CELO.

Definition Blockchain_eqb (a b : Blockchain) : bool :=
  match a, b with
  | ETHEREUM, ETHEREUM | BNB_CHAIN, BNB_CHAIN
  | DECOMMISSIONED_1, DECOMMISSIONED_1 | AVALANCHE, AVALANCHE
  | SOLANA, SOLANA | POLYGON, POLYGON | CRONOS, CRONOS
  | FANTOM, FANTOM | CELO, CELO => true
  | _, _ => false
  end.

Definition Blockchain_value (b : Blockchain) : Z :=
  match b with
  | ETHEREUM => 0 | BNB_CHAIN => 1 | DECOMMISSIONED_1 => 2
  | AVALANCHE => 3 | SOLANA => 4 | POLYGON => 5 | CRONOS => 6
  | FANTOM => 7 | CELO => 8
  end.

Definition Blockchain_members : list Blockchain :=
  [ETHEREUM; BNB_CHAIN; DECOMMISSIONED_1; AVALANCHE; SOLANA; POLYGON;
   CRONOS; FANTOM; CELO].

Definition Blockchain_of_value (v : Z) : option Blockchain :=
  find (fun b => Blockchain_value b =? v) Blockchain_members.

(** Values of Python's dynamic types, as they come out of the ABI decoder. *)
Inductive PyValue :=
| PyBool (b : bool)
| PyInt (z : Z)
| PyStr (s : string).

(** [isinstance(v, bool)], [isinstance(v, int)] (a bool is an int in
    Python) and [isinstance(v, str)]. *)
Definition isinstance_bool (v : PyValue) : bool :=
  match v with PyBool _ => true | _ => false end.

Definition isinstance_int (v : PyValue) : bool :=
  match v with PyBool _ | PyInt _ => true | PyStr _ => false end.

Definition isinstance_str (v : PyValue) : bool :=
  match v with PyStr _ => true | _ => false end.

Definition int_of (v : PyValue) : Z :=
  match v with
  | PyInt z => z
  | PyBool b => if b then 1 else 0
  | PyStr _ => 0
  end.

Definition str_of (v : PyValue) : string :=
  match v with PyStr s => s | _ => EmptyString end.

(** Truth value of a Python object ([not v], [if v]). *)
Definition truthy (v : PyValue) : bool :=
  match v with
  | PyBool b => b
  | PyInt z => negb (z =? 0)
  | PyStr s => negb (String.eqb s EmptyString)
  end.

(** The transfer entity of [pantos.validatornode.entities]; the block
    chain client builds it from fourteen positional arguments, the
    reversal flag keeping its default. *)
Record CrossChainTransfer := {
  source_blockchain : Blockchain;
  destination_blockchain : Blockchain;
  source_hub_address : string;
  source_transfer_id : Z;
  source_transaction_id : string;
  source_block_number : Z;
  source_block_hash : string;
  sender_address : string;
  recipient_address : string;
  source_token_address : string;
  destination_token_address : string;
  amount : Z;
  fee : Z;
  service_node_address : string;
  is_reversal_transfer : bool
}.

Definition eventual_destination_blockchain (t : CrossChainTransfer) :=
  if is_reversal_transfer t then source_blockchain t
  else destination_blockchain t.

Definition eventual_recipient_address (t : CrossChainTransfer) :=
  if is_reversal_transfer t then sender_address t else recipient_address t.

Definition eventual_destination_token_address (t : CrossChainTransfer) :=
  if is_reversal_transfer t then source_token_address t
  else destination_token_address t.

(** Requests and responses of [BlockchainClient]. *)
Record TransferToSignerAddressRecoveryRequest := {
  rr_source_blockchain : Blockchain;
  rr_source_transaction_id : string;
  rr_source_transfer_id : Z;
  rr_sender_address : string;
  rr_recipient_address : string;
  rr_source_token_address : string;
  rr_destination_token_address : string;
  rr_amount : Z;
  rr_validator_nonce : Z;
  rr_signature : bytes
}.

Record TransferToSubmissionStartRequest := {
  internal_transfer_id : Z;
  incoming_transfer : CrossChainTransfer;
  validator_nonce : Z
}.

Record TransferToSubmissionStartResponse := {
  internal_transaction_id : string;
  destination_hub_address : string;
  destination_forwarder_address : string
}.

Record ReadOutgoingTransfersFromBlockResponse := {
  outgoing_transfers : list CrossChainTransfer;
  to_block_number : Z
}.

(** ** Exceptions *)

(** Keyword arguments attached to a client error. *)
Inductive detail :=
| DStr (s : string)
| DInt (z : Z)
| DBool (b : bool)
| DBlockchain (b : Blockchain)
| DRecoveryRequest (r : TransferToSignerAddressRecoveryRequest)
| DSubmissionRequest (r : TransferToSubmissionStartRequest).

(** Instances of [EthereumClientError]: the generic error made by
    [_create_error] and the two specialized errors made by
    [_create_non_matching_forwarder_error] and
    [_create_source_transfer_id_already_used_error]. *)
Inductive client_error :=
| ClientError (message : string) (details : list (string * detail))
| NonMatchingForwarderError
    (source : Blockchain) (transaction_id destination_token : string)
| SourceTransferIdAlreadyUsedError
    (source : Blockchain) (transfer_id : Z) (transaction_id : string).

Inductive exn :=
| ResultsNotMatchingError
| TransactionNonceTooLowError
| TransactionUnderpricedError
| ContractLogicError (reason : string)
| AssertionError
| ValueError
| TypeError
| KeyError (key : string)
| InvalidAddress
| OtherException (name : string)
| EthereumClientError (e : client_error).

Inductive result (A : Type) :=
| Ok (a : A)
| Raise (e : exn).

Arguments Ok {A} a.
Arguments Raise {A} e.

#[export] Instance result_ret : MRet result := fun _ a => Ok a.

#[export] Instance result_bind : MBind result := fun _ _ f r =>
  match r with
  | Ok a => f a
  | Raise e => Raise e
  end.

(** [assert b]. *)
Definition assert (b : bool) : result unit :=
  if b then Ok tt else Raise AssertionError.

Definition _create_error (message : string) (details : list (string * detail))
  : exn :=
  EthereumClientError (ClientError message details).

(** ** Packed ABI encoding: [web3.Web3.solidity_keccak]

    The library renders every value as hexadecimal text, joins the texts
    and hashes the bytes they denote.  An unsigned integer is left-padded
    with zeros to 64 digits, a string is the text of its bytes, an address
    must be an EIP-55 checksum address and contributes its 40 digits. *)

Inductive abi_type := uint256 | abi_string | abi_address.

Inductive abi_value :=
| AInt (z : Z)
| AStr (s : string).

Fixpoint hex_digits (n : nat) (z : Z) : string :=
  match n with
  | O => EmptyString
  | S n' => String.append (hex_digits n' (z / 16))
              (String (hex_digit (z mod 16)) EmptyString)
  end.

(** Python's [hex] of a non-negative integer, without the 0x prefix. *)
Definition py_hex (z : Z) : string :=
  hex_digits (if z =? 0 then 1 else Z.to_nat (Z.log2 z / 4 + 1)) z.

Fixpoint zeros (n : nat) : string :=
  match n with
  | O => EmptyString
  | S n' => String "0" (zeros n')
  end.

Definition zfill (n : nat) (s : string) : string :=
  String.append (zeros (n - String.length s)) s.

Definition pad_hex (digits : string) (bit_size : nat) : string :=
  zfill (bit_size / 4) digits.

Definition is_hex_char (c : ascii) : bool :=
  match hex_value c with Some _ => true | None => false end.

Fixpoint string_forallb (p : ascii -> bool) (s : string) : bool :=
  match s with
  | EmptyString => true
  | String c s' => p c && string_forallb p s'
  end.

Fixpoint string_map (f : ascii -> ascii) (s : string) : string :=
  match s with
  | EmptyString => EmptyString
  | String c s' => String (f c) (string_map f s')
  end.

Definition lower_char (c : ascii) : ascii :=
  let n := N_of_ascii c in
  if ((65 <=? n) && (n <=? 90))%N then ascii_of_N (n + 32) else c.

Definition upper_char (c : ascii) : ascii :=
  let n := N_of_ascii c in
  if ((97 <=? n) && (n <=? 122))%N then ascii_of_N (n - 32) else c.

(** [eth_utils.remove_0x_prefix]: drops a leading 0x or 0X. *)
Definition remove_0x_prefix (s : string) : string :=
  match s with
  | String "0" (String "x" s') => s'
  | String "0" (String "X" s') => s'
  | _ => s
  end.

Fixpoint checksum_chars (address hash : string) : string :=
  match address, hash with
  | String c address', String h hash' =>
      String (if match hex_value h with Some v => 7 <? v | None => false end
              then upper_char c else c)
        (checksum_chars address' hash')
  | _, _ => EmptyString
  end.

(** [eth_utils.to_checksum_address] on a hexadecimal address. *)
Definition to_checksum_address (value : string) : string :=
  let norm := string_map lower_char (remove_0x_prefix value) in
  let address_hash := hex_of_bytes (Keccak.keccak256 (bytes_of_string norm)) in
  String "0" (String "x" (checksum_chars norm address_hash)).

Definition is_hex_address (value : string) : bool :=
  let digits := remove_0x_prefix value in
  (String.length digits =? 40)%nat && string_forallb is_hex_char digits.

Definition is_checksum_address (value : string) : bool :=
  is_hex_address value && String.eqb value (to_checksum_address value).

(** The hexadecimal text of a value at each type. *)
Definition encode_uint256 (z : Z) : string := pad_hex (py_hex z) 256.

Definition encode_string (s : string) : string :=
  hex_of_bytes (bytes_of_string s).

Definition encode_address (s : string) : string :=
  pad_hex (remove_0x_prefix s) 160.

Definition hex_encode_abi_type (t : abi_type) (v : abi_value) : result string :=
  match t, v with
  | uint256, AInt z => if 0 <=? z then Ok (encode_uint256 z) else Raise TypeError
  | abi_string, AStr s => Ok (encode_string s)
  | abi_address, AStr s =>
      if is_checksum_address s then Ok (encode_address s)
      else Raise InvalidAddress
  | _, _ => Raise TypeError
  end.

(** [to_bytes(hexstr=...)]: an odd number of digits gets a leading zero. *)
Definition to_bytes_hexstr (digits : string) : result bytes :=
  let padded :=
    if Nat.odd (String.length digits) then String "0" digits else digits in
  match bytes_of_hex padded with
  | Some bs => Ok bs
  | None => Raise ValueError
  end.

Definition solidity_keccak (abi_types : list abi_type)
    (values : list abi_value) : result bytes :=
  if (length abi_types =? length values)%nat then
    hexes ← mapM (fun '(t, v) => hex_encode_abi_type t v)
              (zip abi_types values);
    message ← to_bytes_hexstr (String.concat EmptyString hexes);
    Ok (Keccak.keccak256 message)
  else Raise ValueError.

(** [eth_account.messages.SignableMessage] and [encode_defunct]. *)
Record SignableMessage := {
  version : bytes;
  header : bytes;
  body : bytes
}.

Definition str_of_nat (n : nat) : string :=
  NilEmpty.string_of_uint (Nat.to_uint n).

Definition encode_defunct (primitive : bytes) : SignableMessage :=
  {| version := bytes_of_string "E";
     header := bytes_of_string "thereum Signed Message:" ++ [Byte.x0a]
               ++ bytes_of_string (str_of_nat (length primitive));
     body := primitive |}.

(** ** The canonical transferTo message *)

Definition transfer_to_message_types : list abi_type :=
  [uint256; uint256; abi_string; uint256; abi_string; abi_address;
   abi_string; abi_address; uint256; uint256; abi_address; abi_address;
   abi_address].

Definition create_transfer_to_message
    (source_blockchain destination_blockchain : Blockchain)
    (source_transaction_id : string) (source_transfer_id : Z)
    (sender_address recipient_address source_token_address
       destination_token_address : string)
    (amount validator_nonce : Z)
    (hub_address forwarder_address pan_token_address : string)
  : result SignableMessage :=
  base_message ← solidity_keccak transfer_to_message_types
    [AInt (Blockchain_value source_blockchain);
     AInt (Blockchain_value destination_blockchain);
     AStr source_transaction_id; AInt source_transfer_id;
     AStr sender_address; AStr recipient_address;
     AStr source_token_address; AStr destination_token_address;
     AInt amount; AInt validator_nonce; AStr hub_address;
     AStr forwarder_address; AStr pan_token_address];
  Ok (encode_defunct base_message).

(** ** Regular expressions: the fragment of [re] the client uses *)

Inductive regex :=
| Bol
| Chr (c : ascii)
| Class (ranges : list (ascii * ascii))
| Rep (r : regex) (n : nat)
| Cat (r1 r2 : regex).

Definition in_class (ranges : list (ascii * ascii)) (c : ascii) : bool :=
  existsb (fun '(lo, hi) =>
             ((N_of_ascii lo <=? N_of_ascii c)
              && (N_of_ascii c <=? N_of_ascii hi))%N) ranges.

(** Matching [r] after [fst st] consumed characters on the rest [snd st];
    this fragment has no choice, so there is at most one way to match. *)
Fixpoint rmatch (r : regex) (st : nat * string) : option (nat * string) :=
  match r with
  | Bol => if (fst st =? 0)%nat then Some st else None
  | Chr c =>
      match snd st with
      | String d s' => if Ascii.eqb c d then Some (S (fst st), s') else None
      | EmptyString => None
      end
  | Class ranges =>
      match snd st with
      | String d s' =>
          if in_class ranges d then Some (S (fst st), s') else None
      | EmptyString => None
      end
  | Rep r' n =>
      (fix rep (k : nat) (st' : nat * string) : option (nat * string) :=
         match k with
         | O => Some st'
         | S k' =>
             match rmatch r' st' with
             | Some st'' => rep k' st''
             | None => None
             end
         end) n st
  | Cat r1 r2 =>
      match rmatch r1 st with
      | Some st' => rmatch r2 st'
      | None => None
      end
  end.

(** [re.match]: the pattern matches a prefix of the string. *)
Definition re_match (pattern : regex) (s : string) : bool :=
  match rmatch pattern (O, s) with
  | Some _ => true
  | None => false
  end.

(** [re.fullmatch]: the pattern matches the whole string. *)
Definition re_fullmatch (pattern : regex) (s : string) : bool :=
  match rmatch pattern (O, s) with
  | Some (_, EmptyString) => true
  | _ => false
  end.

Definition _TRANSACTION_ID_PATTERN : regex :=
  Cat Bol (Cat (Chr "0") (Cat (Chr "x")
    (Rep (Class [("a", "f"); ("A", "F"); ("0", "9")]%char) 64))).

Definition is_valid_transaction_id (transaction_id : string) : bool :=
  re_fullmatch _TRANSACTION_ID_PATTERN transaction_id.

(** The check as the specification words it: only a prefix has to match. *)
Definition spec_is_valid_transaction_id (transaction_id : string) : bool :=
  re_match _TRANSACTION_ID_PATTERN transaction_id.

(** ** Python's [range] *)

Definition py_range (start stop step : Z) : result (list Z) :=
  if step =? 0 then Raise ValueError
  else
    let n :=
      if 0 <? step
      then (if start <? stop then (stop - start - 1) / step + 1 else 0)
      else (if stop <? start then (start - stop - 1) / (- step) + 1 else 0) in
    Ok (map (fun i => start + Z.of_nat i * step) (seq 0 (Z.to_nat n))).

(** ** Node connections *)

Fixpoint successes {A} (rs : list (result A)) : list A :=
  match rs with
  | [] => []
  | Ok a :: rs' => a :: successes rs'
  | Raise _ :: rs' => successes rs'
  end.

(** Modelled from the spec: the reductions of the per-node results of
    [NodeConnections] (package [pantos.common], not under src).  The least
    or greatest of the successful responses is taken; with no successful
    response the call fails. *)
Definition get_minimum_result (rs : list (result Z)) : result Z :=
  match successes rs with
  | [] => Raise (OtherException "NodeConnectionError")
  | v :: vs => Ok (fold_left Z.min vs v)
  end.

Definition get_maximum_result (rs : list (result Z)) : result Z :=
  match successes rs with
  | [] => Raise (OtherException "NodeConnectionError")
  | v :: vs => Ok (fold_left Z.max vs v)
  end.

Inductive ContractAbi := PANTOS_HUB | PANTOS_FORWARDER | PANTOS_TOKEN.

Record Contract := {
  contract_address : string;
  contract_abi : ContractAbi
}.

(** A decoded event log ([web3.types.EventData]). *)
Record EventData := {
  ev_event : string;
  ev_args : gmap string PyValue;
  ev_transactionHash : bytes;
  ev_blockNumber : PyValue;
  ev_blockHash : bytes
}.

Record TransactionReceipt := {
  receipt_transactionHash : bytes;
  receipt_blockNumber : Z
}.

(** [HexBytes.hex()], with the 0x prefix the comparison with a transaction
    id relies on. *)
Definition HexBytes_hex (bs : bytes) : string :=
  String "0" (String "x" (hex_of_bytes bs)).

Definition _OnChainTransferToRequest : Type :=
  Z * Z * string * string * string * string * string * Z * Z.

(** A configured floating point number, the dyadic value it denotes. *)
Record float := {
  mantissa : Z;
  exponent : Z
}.

Record TransactionSubmissionStartRequest := {
  tx_contract_address : string;
  tx_versioned_contract_abi : ContractAbi;
  tx_function_selector : string;
  tx_function_args : _OnChainTransferToRequest * list string * list bytes;
  tx_gas : Z;
  tx_min_adaptable_fee_per_gas : Z;
  tx_max_total_fee_per_gas : option Z;
  tx_amount : option Z;
  tx_nonce : Z;
  tx_adaptable_fee_increase_factor : float;
  tx_blocks_until_resubmission : Z
}.

(** The answers of the blockchain nodes behind one [NodeConnections]
    object.  Block numbers and transaction counts are kept per node, as the
    client chooses their reduction; every other field is the outcome of the
    wrapped call's [get()]. *)
Record NodeConnections := {
  get_block_number : list (result Z);
  get_transaction_count : string -> list (result Z);
  get_transaction_receipt : string -> result TransactionReceipt;
  getTokenRecord : Contract -> string -> result (list PyValue);
  isValidValidatorNodeNonce : Contract -> Z -> result bool;
  getExternalTokenRecord : Contract -> string -> Z -> result (list PyValue);
  decimals : Contract -> result PyValue;
  getValidatorNodes : Contract -> result (list string);
  verifyTransferTo :
    Contract -> _OnChainTransferToRequest -> list string -> list bytes ->
    result unit;
  TransferFrom_get_logs : Contract -> Z -> Z -> result (list EventData);
  TransferFrom_process_receipt :
    Contract -> TransactionReceipt -> result (list EventData)
}.

(** [EthereumUtilities] of [pantos.common]. *)
Record Utilities := {
  create_node_connections : Z -> result NodeConnections;
  start_transaction_submission :
    TransactionSubmissionStartRequest -> NodeConnections -> result string
}.

(** [web3.Account] and the derivation of an address from a private key. *)
Record Account := {
  sign_message : SignableMessage -> bytes -> result bytes;
  recover_message : SignableMessage -> bytes -> result string;
  get_address : bytes -> string
}.

Record Config := {
  hub : string;
  forwarder : string;
  pan_token : string;
  provider_timeout : Z;
  outgoing_transfers_number_blocks : Z;
  min_adaptable_fee_per_gas : Z;
  max_total_fee_per_gas : option Z;
  adaptable_fee_increase_factor : float;
  blocks_until_resubmission : Z
}.

(** ** The store of transfer nonces *)

(** Modelled from the spec: [database_access.update_transfer_nonce],
    [read_transfer_nonce] and [reset_transfer_nonce]
    ([pantos/validatornode/database/access.py], not under src): a store
    keyed by the internal transfer id; a nonce is persisted only if none is
    stored for the id, and a reset clears it. *)
Definition update_transfer_nonce (internal_transfer_id : Z)
    (blockchain : Blockchain) (latest_blockchain_nonce : Z)
    (db : gmap Z Z) : gmap Z Z :=
  match db !! internal_transfer_id with
  | Some _ => db
  | None => <[internal_transfer_id := latest_blockchain_nonce]> db
  end.

Definition read_transfer_nonce (internal_transfer_id : Z) (db : gmap Z Z)
  : option Z :=
  db !! internal_transfer_id.

Definition reset_transfer_nonce (internal_transfer_id : Z) (db : gmap Z Z)
  : gmap Z Z :=
  delete internal_transfer_id db.

(** ** The Ethereum client *)

Definition _HUB_TRANSFER_TO_FUNCTION_SELECTOR : string := "0x92557c8a".
Definition _HUB_TRANSFER_TO_GAS : Z := 250000.

Definition _NON_MATCHING_FORWARDER_ERROR : string :=
  "PantosHub: Forwarder of Hub and transferred token must match".
Definition _SOURCE_TRANSFER_ID_ALREADY_USED_ERROR : string :=
  "PantosHub: source transfer ID already used".

(** [needle in haystack] on strings. *)
Fixpoint contains (needle haystack : string) : bool :=
  String.prefix needle haystack
  || match haystack with
     | String _ haystack' => contains needle haystack'
     | EmptyString => false
     end.

(** [try: body except ...: handler]. *)
Definition try_except {A} (body : result A) (handler : exn -> result A)
  : result A :=
  match body with
  | Ok a => Ok a
  | Raise e => handler e
  end.

(** [d[key]] on a dictionary. *)
Definition getitem (d : gmap string PyValue) (key : string) : result PyValue :=
  match d !! key with
  | Some v => Ok v
  | None => Raise (KeyError key)
  end.

(** [Blockchain(value)]. *)
Definition Blockchain_init (v : PyValue) : result Blockchain :=
  match Blockchain_of_value (int_of v) with
  | Some b => Ok b
  | None => Raise ValueError
  end.

Record EthereumClient := {
  config : Config;
  utilities : Utilities;
  blockchain_name : string;
  private_key : bytes;
  address : string
}.

Definition get_blockchain : Blockchain := ETHEREUM.

(** The body of the loop over the block chunks.  The local variable
    [from_block_number] is reassigned by the loop and read by the error
    handler of the caller, so its last value is returned with the outcome.
    The type of the logs is left open. *)
Fixpoint read_event_logs {A} (get_logs : Z -> Z -> result (list A))
    (to_block_numbers : list Z) (from_block_number : Z) (event_logs : list A)
  : Z * result (list A) :=
  match to_block_numbers with
  | [] => (from_block_number, Ok event_logs)
  | to_block_number :: rest =>
      if to_block_number >=? from_block_number then
        match get_logs from_block_number to_block_number with
        | Ok logs =>
            read_event_logs get_logs rest (to_block_number + 1)
              (event_logs ++ logs)
        | Raise e => (from_block_number, Raise e)
        end
      else (from_block_number, Raise AssertionError)
  end.

Definition to_block_numbers_of (from_block_number number_blocks
    latest_block_number : Z) : result (list Z) :=
  r ← py_range (from_block_number + number_blocks) latest_block_number
        number_blocks;
  Ok (r ++ [latest_block_number]).

Section Client.

Variable crypto : Account.
Variable self : EthereumClient.

Definition __create_node_connections : result NodeConnections :=
  create_node_connections (utilities self) (provider_timeout (config self)).

Definition _create_hub_contract (hub_address : option string) : Contract :=
  {| contract_address := default (hub (config self)) hub_address;
     contract_abi := PANTOS_HUB |}.

Definition _create_forwarder_contract : Contract :=
  {| contract_address := forwarder (config self);
     contract_abi := PANTOS_FORWARDER |}.

Definition _create_token_contract (token_address : string) : Contract :=
  {| contract_address := token_address; contract_abi := PANTOS_TOKEN |}.

Definition is_token_active_body (token_address : string) : result bool :=
  node_connections ← __create_node_connections;
  let hub_contract := _create_hub_contract None in
  token_record ← getTokenRecord node_connections hub_contract token_address;
  _ ← assert (length token_record =? 2)%nat;
  match token_record with
  | PyBool token_active :: _ => Ok token_active
  | _ => Raise AssertionError
  end.

Definition is_token_active (token_address : string) : result bool :=
  try_except (is_token_active_body token_address)
    (fun e =>
       match e with
       | ResultsNotMatchingError => Raise e
       | _ => Raise (_create_error "unable to determine if a token is active"
                       [("token_address", DStr token_address)])
       end).

Definition is_valid_validator_nonce_body (nonce : Z) : result bool :=
  node_connections ← __create_node_connections;
  let hub_contract := _create_hub_contract None in
  isValidValidatorNodeNonce node_connections hub_contract nonce.

Definition is_valid_validator_nonce (nonce : Z) : result bool :=
  try_except (is_valid_validator_nonce_body nonce)
    (fun e =>
       match e with
       | ResultsNotMatchingError => Raise e
       | _ => Raise (_create_error
                       "unable to determine if a validator node nonce is valid"
                       [("nonce", DInt nonce)])
       end).

Definition read_external_token_address_body (token_address : string)
    (external_blockchain : Blockchain) : result (option string) :=
  node_connections ← __create_node_connections;
  let hub_contract := _create_hub_contract None in
  external_token_record ←
    getExternalTokenRecord node_connections hub_contract token_address
      (Blockchain_value external_blockchain);
  _ ← assert (length external_token_record =? 2)%nat;
  match external_token_record with
  | [PyBool active; PyStr external_token_address] =>
      if negb active then Ok None else Ok (Some external_token_address)
  | _ => Raise AssertionError
  end.

Definition read_external_token_address (token_address : string)
    (external_blockchain : Blockchain) : result (option string) :=
  try_except (read_external_token_address_body token_address
                external_blockchain)
    (fun e =>
       match e with
       | ResultsNotMatchingError => Raise e
       | _ => Raise (_create_error "unable to read an external token address"
                       [("token_address", DStr token_address);
                        ("external_blockchain",
                         DBlockchain external_blockchain)])
       end).

Definition create_outgoing_transfer (hub_contract_address : string)
    (event_log : EventData) : result CrossChainTransfer :=
  _ ← assert (String.eqb (ev_event event_log) "TransferFrom");
  let event_args := ev_args event_log in
  source_transfer_id ← getitem event_args "sourceTransferId";
  destination_blockchain_id ← getitem event_args "destinationBlockchainId";
  sender_address ← getitem event_args "sender";
  recipient_address ← getitem event_args "recipient";
  source_token_address ← getitem event_args "sourceToken";
  destination_token_address ← getitem event_args "destinationToken";
  amount ← getitem event_args "amount";
  fee ← getitem event_args "fee";
  service_node_address ← getitem event_args "serviceNode";
  _ ← assert (isinstance_int source_transfer_id);
  _ ← assert (isinstance_int destination_blockchain_id);
  _ ← assert (isinstance_str sender_address);
  _ ← assert (isinstance_str recipient_address);
  _ ← assert (isinstance_str source_token_address);
  _ ← assert (isinstance_str destination_token_address);
  _ ← assert (isinstance_int amount);
  _ ← assert (isinstance_int fee);
  _ ← assert (isinstance_str service_node_address);
  let transaction_hash := HexBytes_hex (ev_transactionHash event_log) in
  let block_number := ev_blockNumber event_log in
  let block_hash := HexBytes_hex (ev_blockHash event_log) in
  _ ← assert (isinstance_int block_number);
  let source_blockchain := get_blockchain in
  destination_blockchain ← Blockchain_init destination_blockchain_id;
  _ ← assert (negb (Blockchain_eqb source_blockchain destination_blockchain));
  Ok {| source_blockchain := source_blockchain;
        destination_blockchain := destination_blockchain;
        source_hub_address := hub_contract_address;
        source_transfer_id := int_of source_transfer_id;
        source_transaction_id := transaction_hash;
        source_block_number := int_of block_number;
        source_block_hash := block_hash;
        sender_address := str_of sender_address;
        recipient_address := str_of recipient_address;
        source_token_address := str_of source_token_address;
        destination_token_address := str_of destination_token_address;
        amount := int_of amount;
        fee := int_of fee;
        service_node_address := str_of service_node_address;
        is_reversal_transfer := false |}.

Definition __create_outgoing_transfers (event_logs : list EventData)
    (hub_contract_address : string) : result (list CrossChainTransfer) :=
  mapM (create_outgoing_transfer hub_contract_address) event_logs.

(** The try block of [read_outgoing_transfers_from_block], with the value
    the variable [from_block_number] has when the block is left.  The log
    record written before the loop has no part in the outcome. *)
Definition read_outgoing_transfers_from_block_body (from_block_number : Z)
  : Z * result ReadOutgoingTransfersFromBlockResponse :=
  match __create_node_connections with
  | Raise e => (from_block_number, Raise e)
  | Ok node_connections =>
      match get_minimum_result (get_block_number node_connections) with
      | Raise e => (from_block_number, Raise e)
      | Ok latest_block_number =>
          if from_block_number >? latest_block_number then
            (from_block_number,
             Ok {| outgoing_transfers := [];
                   to_block_number := latest_block_number |})
          else
            let hub_contract := _create_hub_contract None in
            let number_blocks :=
              outgoing_transfers_number_blocks (config self) in
            match to_block_numbers_of from_block_number number_blocks
                    latest_block_number with
            | Raise e => (from_block_number, Raise e)
            | Ok to_block_numbers =>
                let '(from_block_number', logs) :=
                  read_event_logs
                    (TransferFrom_get_logs node_connections hub_contract)
                    to_block_numbers from_block_number [] in
                (from_block_number',
                 event_logs ← logs;
                 outgoing_transfers ←
                   __create_outgoing_transfers event_logs
                     (contract_address hub_contract);
                 Ok {| outgoing_transfers := outgoing_transfers;
                       to_block_number := latest_block_number |})
            end
      end
  end.

Definition read_outgoing_transfers_from_block (from_block_number : Z)
  : result ReadOutgoingTransfersFromBlockResponse :=
  let '(from_block_number', body) :=
    read_outgoing_transfers_from_block_body from_block_number in
  try_except body
    (fun e =>
       match e with
       | ResultsNotMatchingError => Raise e
       | _ => Raise (_create_error
                       "unable to read outgoing transfers from a starting block"
                       [("from_block_number", DInt from_block_number')])
       end).

Definition read_outgoing_transfers_in_transaction_body
    (transaction_id hub_address : string) : result (list CrossChainTransfer) :=
  node_connections ← __create_node_connections;
  transaction_receipt ←
    get_transaction_receipt node_connections transaction_id;
  _ ← assert (String.eqb
                (HexBytes_hex (receipt_transactionHash transaction_receipt))
                transaction_id);
  let hub_contract := _create_hub_contract (Some hub_address) in
  event_logs ← TransferFrom_process_receipt node_connections hub_contract
                 transaction_receipt;
  __create_outgoing_transfers event_logs hub_address.

Definition read_outgoing_transfers_in_transaction
    (transaction_id hub_address : string) : result (list CrossChainTransfer) :=
  try_except (read_outgoing_transfers_in_transaction_body transaction_id
                hub_address)
    (fun e =>
       match e with
       | ResultsNotMatchingError => Raise e
       | _ => Raise (_create_error
                       "unable to read outgoing transfers in a transaction"
                       [("transaction_id", DStr transaction_id);
                        ("hub_address", DStr hub_address)])
       end).

Definition read_token_decimals_body (token_address : string) : result Z :=
  node_connections ← __create_node_connections;
  let token_contract := _create_token_contract token_address in
  decimals ← decimals node_connections token_contract;
  _ ← assert (isinstance_int decimals);
  Ok (int_of decimals).

Definition read_token_decimals (token_address : string) : result Z :=
  try_except (read_token_decimals_body token_address)
    (fun e =>
       match e with
       | ResultsNotMatchingError => Raise e
       | _ => Raise (_create_error "unable to read the decimals of a token"
                       [("token_address", DStr token_address)])
       end).

Definition read_validator_node_addresses_body : result (list string) :=
  node_connections ← __create_node_connections;
  let forwarder_contract := _create_forwarder_contract in
  getValidatorNodes node_connections forwarder_contract.

Definition read_validator_node_addresses : result (list string) :=
  try_except read_validator_node_addresses_body
    (fun e =>
       match e with
       | ResultsNotMatchingError => Raise e
       | _ => Raise (_create_error
                       "unable to read the validator node addresses" [])
       end).

Definition recover_transfer_to_signer_address
    (request : TransferToSignerAddressRecoveryRequest) : result string :=
  let destination_blockchain := get_blockchain in
  let hub_address := hub (config self) in
  let forwarder_address := forwarder (config self) in
  let pan_token_address := pan_token (config self) in
  message ← create_transfer_to_message
    (rr_source_blockchain request) destination_blockchain
    (rr_source_transaction_id request) (rr_source_transfer_id request)
    (rr_sender_address request) (rr_recipient_address request)
    (rr_source_token_address request) (rr_destination_token_address request)
    (rr_amount request) (rr_validator_nonce request) hub_address
    forwarder_address pan_token_address;
  try_except (recover_message crypto message (rr_signature request))
    (fun _ => Raise (_create_error "unable to recover the signer's address"
                       [("request", DRecoveryRequest request)])).

Definition __create_transfer_to_signature
    (incoming_transfer : CrossChainTransfer) (validator_nonce : Z)
    (hub_address forwarder_address pan_token_address : string)
  : result bytes :=
  message ← create_transfer_to_message
    (source_blockchain incoming_transfer)
    (eventual_destination_blockchain incoming_transfer)
    (source_transaction_id incoming_transfer)
    (source_transfer_id incoming_transfer)
    (sender_address incoming_transfer)
    (eventual_recipient_address incoming_transfer)
    (source_token_address incoming_transfer)
    (eventual_destination_token_address incoming_transfer)
    (amount incoming_transfer) validator_nonce hub_address
    forwarder_address pan_token_address;
  sign_message crypto message (private_key self).

Definition __get_nonce (db : gmap Z Z) (node_connections : NodeConnections)
    (internal_transfer_id : Z) : gmap Z Z * result Z :=
  match get_maximum_result
          (get_transaction_count node_connections (address self)) with
  | Raise e => (db, Raise e)
  | Ok transaction_count =>
      let db' := update_transfer_nonce internal_transfer_id get_blockchain
                   transaction_count db in
      match read_transfer_nonce internal_transfer_id db' with
      | Some nonce => (db', Ok nonce)
      | None => (db', Raise AssertionError)
      end
  end.

(** The request [__submit_transfer_to_request] hands to the utilities. *)
Definition transfer_to_submission_request
    (on_chain_request : _OnChainTransferToRequest) (signature : bytes)
    (nonce : Z) : TransactionSubmissionStartRequest :=
  {| tx_contract_address := hub (config self);
     tx_versioned_contract_abi := PANTOS_HUB;
     tx_function_selector := _HUB_TRANSFER_TO_FUNCTION_SELECTOR;
     tx_function_args := (on_chain_request, [address self], [signature]);
     tx_gas := _HUB_TRANSFER_TO_GAS;
     tx_min_adaptable_fee_per_gas := min_adaptable_fee_per_gas (config self);
     tx_max_total_fee_per_gas := max_total_fee_per_gas (config self);
     tx_amount := None;
     tx_nonce := nonce;
     tx_adaptable_fee_increase_factor :=
       adaptable_fee_increase_factor (config self);
     tx_blocks_until_resubmission := blocks_until_resubmission (config self) |}.

Definition __submit_transfer_to_request (db : gmap Z Z)
    (node_connections : NodeConnections) (internal_transfer_id : Z)
    (on_chain_request : _OnChainTransferToRequest) (signature : bytes)
  : gmap Z Z * result string :=
  let '(db', nonce_result) :=
    __get_nonce db node_connections internal_transfer_id in
  match nonce_result with
  | Raise e => (db', Raise e)
  | Ok nonce =>
      let request := transfer_to_submission_request on_chain_request
                       signature nonce in
      match start_transaction_submission (utilities self) request
              node_connections with
      | Ok internal_transaction_id => (db', Ok internal_transaction_id)
      | Raise e =>
          match e with
          | TransactionNonceTooLowError | TransactionUnderpricedError =>
              (reset_transfer_nonce internal_transfer_id db', Raise e)
          | _ => (db', Raise e)
          end
      end
  end.

Definition __verify_transfer_to_request (hub_contract : Contract)
    (node_connections : NodeConnections)
    (incoming_transfer : CrossChainTransfer)
    (on_chain_request : _OnChainTransferToRequest) (signature : bytes)
  : result unit :=
  try_except
    (verifyTransferTo node_connections hub_contract on_chain_request
       [address self] [signature])
    (fun error =>
       match error with
       | ContractLogicError reason =>
           if contains _NON_MATCHING_FORWARDER_ERROR reason then
             Raise (EthereumClientError
                      (NonMatchingForwarderError
                         (source_blockchain incoming_transfer)
                         (source_transaction_id incoming_transfer)
                         (destination_token_address incoming_transfer)))
           else if contains _SOURCE_TRANSFER_ID_ALREADY_USED_ERROR reason then
             Raise (EthereumClientError
                      (SourceTransferIdAlreadyUsedError
                         (source_blockchain incoming_transfer)
                         (source_transfer_id incoming_transfer)
                         (source_transaction_id incoming_transfer)))
           else Raise error
       | _ => Raise error
       end).

(** The tuple [on_chain_request] of [start_transfer_to_submission]. *)
Definition on_chain_transfer_to_request
    (request : TransferToSubmissionStartRequest) : _OnChainTransferToRequest :=
  let transfer := incoming_transfer request in
  (Blockchain_value (source_blockchain transfer),
   source_transfer_id transfer,
   source_transaction_id transfer,
   sender_address transfer,
   eventual_recipient_address transfer,
   source_token_address transfer,
   eventual_destination_token_address transfer,
   amount transfer, validator_nonce request).

(** The try block of [start_transfer_to_submission] up to the submission:
    the node connections, the request as the Hub takes it and the signature,
    once the request is verified. *)
Definition prepare_transfer_to_submission
    (request : TransferToSubmissionStartRequest)
  : result (NodeConnections * _OnChainTransferToRequest * bytes) :=
  node_connections ← __create_node_connections;
  let hub_contract := _create_hub_contract None in
  let hub_address := hub (config self) in
  let forwarder_address := forwarder (config self) in
  let pan_token_address := pan_token (config self) in
  let transfer := incoming_transfer request in
  signature ← __create_transfer_to_signature transfer
    (validator_nonce request) hub_address forwarder_address
    pan_token_address;
  let on_chain_request := on_chain_transfer_to_request request in
  _ ← __verify_transfer_to_request hub_contract node_connections transfer
        on_chain_request signature;
  Ok (node_connections, on_chain_request, signature).

Definition start_transfer_to_submission_body (db : gmap Z Z)
    (request : TransferToSubmissionStartRequest)
  : gmap Z Z * result TransferToSubmissionStartResponse :=
  match prepare_transfer_to_submission request with
  | Raise e => (db, Raise e)
  | Ok (node_connections, on_chain_request, signature) =>
      let '(db', submission) :=
        __submit_transfer_to_request db node_connections
          (internal_transfer_id request) on_chain_request signature in
      (db',
       internal_transaction_id ← submission;
       Ok {| internal_transaction_id := internal_transaction_id;
             destination_hub_address := hub (config self);
             destination_forwarder_address := forwarder (config self) |})
  end.

Definition start_transfer_to_submission (db : gmap Z Z)
    (request : TransferToSubmissionStartRequest)
  : gmap Z Z * result TransferToSubmissionStartResponse :=
  if negb (Blockchain_eqb
             (eventual_destination_blockchain (incoming_transfer request))
             get_blockchain)
  then
    (db,
     Raise (_create_error
              (String.append
                 "eventual destination blockchain of incoming transfer must be "
                 (blockchain_name self))
              [("request", DSubmissionRequest request)]))
  else
    let '(db', body) := start_transfer_to_submission_body db request in
    (db',
     try_except body
       (fun e =>
          match e with
          | ResultsNotMatchingError => Raise e
          | EthereumClientError _ => Raise e
          | _ => Raise (_create_error "unable to start a transferTo submission"
                          [("request", DSubmissionRequest request)])
          end)).

End Client.

(** ** Definitions used to state the properties *)

(** The message as the specification words it: the sender, the recipient
    and both token addresses are all encoded as strings. *)
Definition spec_transfer_to_message_types : list abi_type :=
  [uint256; uint256; abi_string; uint256; abi_string; abi_string;
   abi_string; abi_string; uint256; uint256; abi_address; abi_address;
   abi_address].

Definition spec_create_transfer_to_message
    (source_blockchain destination_blockchain : Blockchain)
    (source_transaction_id : string) (source_transfer_id : Z)
    (sender_address recipient_address source_token_address
       destination_token_address : string)
    (amount validator_nonce : Z)
    (hub_address forwarder_address pan_token_address : string)
  : result SignableMessage :=
  base_message ← solidity_keccak spec_transfer_to_message_types
    [AInt (Blockchain_value source_blockchain);
     AInt (Blockchain_value destination_blockchain);
     AStr source_transaction_id; AInt source_transfer_id;
     AStr sender_address; AStr recipient_address;
     AStr source_token_address; AStr destination_token_address;
     AInt amount; AInt validator_nonce; AStr hub_address;
     AStr forwarder_address; AStr pan_token_address];
  Ok (encode_defunct base_message).

(** The hexadecimal text the client hashes: the thirteen fields in their
    order, each at the type the client gives it. *)
Definition transfer_to_message_hex
    (source_blockchain destination_blockchain : Blockchain)
    (source_transaction_id : string) (source_transfer_id : Z)
    (sender_address recipient_address source_token_address
       destination_token_address : string)
    (amount validator_nonce : Z)
    (hub_address forwarder_address pan_token_address : string) : string :=
  String.append (encode_uint256 (Blockchain_value source_blockchain))
 (String.append (encode_uint256 (Blockchain_value destination_blockchain))
 (String.append (encode_string source_transaction_id)
 (String.append (encode_uint256 source_transfer_id)
 (String.append (encode_string sender_address)
 (String.append (encode_address recipient_address)
 (String.append (encode_string source_token_address)
 (String.append (encode_address destination_token_address)
 (String.append (encode_uint256 amount)
 (String.append (encode_uint256 validator_nonce)
 (String.append (encode_address hub_address)
 (String.append (encode_address forwarder_address)
                (encode_address pan_token_address)))))))))))).

(** The fields the library accepts: integers that are not negative and
    checksum addresses where an address is encoded. *)
Definition transfer_to_fields_encodable (source_transfer_id : Z)
    (recipient_address destination_token_address : string)
    (amount validator_nonce : Z)
    (hub_address forwarder_address pan_token_address : string) : bool :=
  (0 <=? source_transfer_id)
  && is_checksum_address recipient_address
  && is_checksum_address destination_token_address
  && (0 <=? amount) && (0 <=? validator_nonce)
  && is_checksum_address hub_address
  && is_checksum_address forwarder_address
  && is_checksum_address pan_token_address.

(** The events of the blocks [a] to [b] of a chain, in block order: what one
    fetch over the whole range returns from a node that sees [chain]. *)
Definition logs_between {A} (chain : Z -> list A) (a b : Z) : list A :=
  flat_map chain (seqZ a (b - a + 1)).

(** The block ranges the chunk loop asks for, in the order of the calls. *)
Definition block_chunks (to_block_numbers : list Z) (from_block_number : Z)
  : result (list (Z * Z)) :=
  snd (read_event_logs (fun a b => Ok [(a, b)]) to_block_numbers
         from_block_number []).

(** [covers a b chunks]: the non-empty ranges [chunks] follow each other
    without gap or overlap, from block [a] to block [b]. *)
Inductive covers : Z -> Z -> list (Z * Z) -> Prop :=
| covers_last a b : a <= b -> covers a b [(a, b)]
| covers_next a m b chunks :
    a <= m -> covers (m + 1) b chunks -> covers a b ((a, m) :: chunks).

(** [ascending from tos]: each upper block number is at least the lower
    block number it is used with, the first being [from] and every next one
    following the previous upper block number. *)
Inductive ascending : Z -> list Z -> Prop :=
| ascending_nil from : ascending from []
| ascending_cons from to rest :
    from <= to -> ascending (to + 1) rest -> ascending from (to :: rest).

(** How an operation treats the outcome of its try block: a result and a
    [ResultsNotMatchingError] pass, anything else becomes the client error
    with the given message and details. *)
Definition wraps {A} (message : string) (details : list (string * detail))
    (body operation : result A) : Prop :=
  match body with
  | Ok a => operation = Ok a
  | Raise ResultsNotMatchingError => operation = Raise ResultsNotMatchingError
  | Raise _ => operation = Raise (_create_error message details)
  end.

(** The same, with the errors of the client itself passing as they are. *)
Definition wraps_foreign {A} (message : string)
    (details : list (string * detail)) (body operation : result A) : Prop :=
  match body with
  | Ok a => operation = Ok a
  | Raise ResultsNotMatchingError => operation = Raise ResultsNotMatchingError
  | Raise (EthereumClientError e) => operation = Raise (EthereumClientError e)
  | Raise _ => operation = Raise (_create_error message details)
  end.

Definition is_retry_error (e : exn) : bool :=
  match e with
  | TransactionNonceTooLowError | TransactionUnderpricedError => true
  | _ => false
  end.

(** The recovery request that carries the fields of a transfer, a validator
    nonce and a signature. *)
Definition recovery_request_of (t : CrossChainTransfer) (nonce : Z)
    (signature : bytes) : TransferToSignerAddressRecoveryRequest :=
  {| rr_source_blockchain := source_blockchain t;
     rr_source_transaction_id := source_transaction_id t;
     rr_source_transfer_id := source_transfer_id t;
     rr_sender_address := sender_address t;
     rr_recipient_address := eventual_recipient_address t;
     rr_source_token_address := source_token_address t;
     rr_destination_token_address := eventual_destination_token_address t;
     rr_amount := amount t;
     rr_validator_nonce := nonce;
     rr_signature := signature |}.


(** ** Concrete clients for the examples *)

Definition address_1 : string := "0x5aAeb6053F3E94C9b9A09f33669435E7Ef1BeAed".
Definition address_2 : string := "0xfB6916095ca1df60bB79Ce92cE3Ea74c37c5d359".

Fixpoint bytes_eqb (a b : bytes) : bool :=
  match a, b with
  | [], [] => true
  | x :: a', y :: b' => Byte.eqb x y && bytes_eqb a' b'
  | _, _ => false
  end.

(** A toy scheme: the signature is the message body followed by the key. *)
Definition toy_account : Account :=
  {| sign_message := fun m key => Ok (body m ++ key);
     recover_message := fun m signature =>
       if bytes_eqb (take (length (body m)) signature) (body m)
       then Ok (HexBytes_hex (drop (length (body m)) signature))
       else Raise (OtherException "BadSignature");
     get_address := HexBytes_hex |}.

Definition demo_config (number_blocks : Z) : Config :=
  {| hub := address_1;
     forwarder := address_2;
     pan_token := address_1;
     provider_timeout := 10;
     outgoing_transfers_number_blocks := number_blocks;
     min_adaptable_fee_per_gas := 1000000000;
     max_total_fee_per_gas := None;
     adaptable_fee_increase_factor := {| mantissa := 9; exponent := -3 |};
     blocks_until_resubmission := 10 |}.

Definition demo_nodes (block_numbers : list (result Z))
    (token_record : result (list PyValue)) (verification : result unit)
    (chain : Z -> list EventData) : NodeConnections :=
  {| get_block_number := block_numbers;
     get_transaction_count := fun _ => [Ok 7; Ok 9];
     get_transaction_receipt := fun _ =>
       Raise (OtherException "TransactionNotFound");
     getTokenRecord := fun _ _ => token_record;
     isValidValidatorNodeNonce := fun _ _ => Ok true;
     getExternalTokenRecord := fun _ _ _ => token_record;
     decimals := fun _ => Ok (PyInt 8);
     getValidatorNodes := fun _ => Ok [address_2];
     verifyTransferTo := fun _ _ _ _ => verification;
     TransferFrom_get_logs := fun _ a b => Ok (logs_between chain a b);
     TransferFrom_process_receipt := fun _ _ => Ok [] |}.

Definition demo_client (number_blocks : Z) (nodes : NodeConnections)
    (submission : result string) : EthereumClient :=
  {| config := demo_config number_blocks;
     utilities :=
       {| create_node_connections := fun _ => Ok nodes;
          start_transaction_submission := fun _ _ => submission |};
     blockchain_name := "Ethereum";
     private_key := [Byte.x2a];
     address := get_address toy_account [Byte.x2a] |}.

Definition demo_transfer : CrossChainTransfer :=
  {| source_blockchain := BNB_CHAIN;
     destination_blockchain := ETHEREUM;
     source_hub_address := address_2;
     source_transfer_id := 17;
     source_transaction_id :=
       "0xaaaaaaaaaaaaaaaaaaaaaaaaaaaaaaaaaaaaaaaaaaaaaaaaaaaaaaaaaaaaaaaa";
     source_block_number := 100;
     source_block_hash :=
       "0xbbbbbbbbbbbbbbbbbbbbbbbbbbbbbbbbbbbbbbbbbbbbbbbbbbbbbbbbbbbbbbbb";
     sender_address := address_2;
     recipient_address := address_1;
     source_token_address := address_2;
     destination_token_address := address_1;
     amount := 1000;
     fee := 3;
     service_node_address := address_2;
     is_reversal_transfer := false |}.

Definition demo_request : TransferToSubmissionStartRequest :=
  {| internal_transfer_id := 1;
     incoming_transfer := demo_transfer;
     validator_nonce := 5 |}.

Definition demo_event (block : Z) (destination_blockchain_id : Z) : EventData :=
  {| ev_event := "TransferFrom";
     ev_args :=
       list_to_map
         [("sourceTransferId", PyInt block);
          ("destinationBlockchainId", PyInt destination_blockchain_id);
          ("sender", PyStr address_1); ("recipient", PyStr address_2);
          ("sourceToken", PyStr address_1);
          ("destinationToken", PyStr address_2);
          ("amount", PyInt 50); ("fee", PyInt 1);
          ("serviceNode", PyStr address_2)];
     ev_transactionHash := [Byte.x01; Byte.x02];
     ev_blockNumber := PyInt block;
     ev_blockHash := [Byte.x03] |}.

(** The signature the toy scheme gives the demonstration request. *)
Definition demo_signature : bytes :=
  Eval vm_compute in
    match create_transfer_to_message BNB_CHAIN ETHEREUM
            (source_transaction_id demo_transfer) 17 address_2 address_1
            address_2 address_1 1000 5 address_1 address_2 address_1 with
    | Ok message => body message ++ [Byte.x2a]
    | Raise _ => []
    end.


Definition demo_signer_signature : bytes :=
  Eval vm_compute in
    match create_transfer_to_message BNB_CHAIN ETHEREUM
            (source_transaction_id demo_transfer) 17 address_2 address_1
            address_2 address_1 1000 5 address_1 address_2 address_1 with
    | Ok message => body message ++ [Byte.x07]
    | Raise _ => []
    end.

(** A chain with one TransferFrom event in every block. *)
Definition demo_chain (block : Z) : list EventData := [demo_event block 1].

(** ** Checking a recipient address *)

Fixpoint hex_number (acc : Z) (digits : string) : option Z :=
  match digits with
  | EmptyString => Some acc
  | String c digits' =>
      match hex_value c with
      | Some v => hex_number (16 * acc + v) digits'
      | None => None
      end
  end.

(** [int(text, 0)] on a hexadecimal literal, the only kind of literal the
    client passes: 0x followed by at least one hexadecimal digit. *)
Definition py_int_literal (text : string) : result Z :=
  match text with
  | String "0" (String "x" (String c digits)) =>
      match hex_number 0 (String c digits) with
      | Some v => Ok v
      | None => Raise ValueError
      end
  | _ => Raise ValueError
  end.

(** [web3.Web3.to_checksum_address] on a string: any hexadecimal address
    is put in checksum form, whatever its case; other strings are a
    [ValueError]. *)
Definition Web3_to_checksum_address (value : string) : result string :=
  if is_hex_address value then Ok (to_checksum_address value)
  else Raise ValueError.

Definition is_valid_recipient_address (recipient_address : string)
  : result bool :=
  match Web3_to_checksum_address recipient_address with
  | Raise ValueError => Ok false
  | Raise e => Raise e
  | Ok checksum_address =>
      value ← py_int_literal checksum_address;
      let is_zero_address := value =? 0 in
      Ok (negb is_zero_address)
  end.

(** The arguments [__create_outgoing_transfers] reads from an event. *)
Definition transfer_from_arguments : list string :=
  ["sourceTransferId"; "destinationBlockchainId"; "sender"; "recipient";
   "sourceToken"; "destinationToken"; "amount"; "fee"; "serviceNode"].

(** ** Further definitions used to state properties *)

Definition zero_digits (digits : string) : bool :=
  string_forallb (Ascii.eqb "0") digits.

(** An argument of an event that is an integer, or a string. *)
Definition int_argument (event_log : EventData) (key : string) (z : Z) : Prop :=
  exists v,
    ev_args event_log !! key = Some v /\ isinstance_int v = true
    /\ int_of v = z.

Definition str_argument (event_log : EventData) (key : string) (s : string)
  : Prop :=
  ev_args event_log !! key = Some (PyStr s).

(** The transfer read from a TransferFrom event of the Hub at
    [hub_contract_address]. *)
Definition transfer_of_event (hub_contract_address : string)
    (event_log : EventData) (t : CrossChainTransfer) : Prop :=
  ev_event event_log = "TransferFrom"%string
  /\ source_blockchain t = get_blockchain
  /\ int_argument event_log "destinationBlockchainId"
       (Blockchain_value (destination_blockchain t))
  /\ source_hub_address t = hub_contract_address
  /\ int_argument event_log "sourceTransferId" (source_transfer_id t)
  /\ source_transaction_id t = HexBytes_hex (ev_transactionHash event_log)
  /\ isinstance_int (ev_blockNumber event_log) = true
  /\ source_block_number t = int_of (ev_blockNumber event_log)
  /\ source_block_hash t = HexBytes_hex (ev_blockHash event_log)
  /\ str_argument event_log "sender" (sender_address t)
  /\ str_argument event_log "recipient" (recipient_address t)
  /\ str_argument event_log "sourceToken" (source_token_address t)
  /\ str_argument event_log "destinationToken" (destination_token_address t)
  /\ int_argument event_log "amount" (amount t)
  /\ int_argument event_log "fee" (fee t)
  /\ str_argument event_log "serviceNode" (service_node_address t)
  /\ is_reversal_transfer t = false.

(** The exceptions the mapping of an event raises. *)
Definition mapping_error (e : exn) : Prop :=
  e = AssertionError \/ e = ValueError \/ exists key, e = KeyError key.

(** [stepped n from tos]: as [ascending], and no upper block number is
    more than [n] above the lower block number it is used with. *)
Inductive stepped (n : Z) : Z -> list Z -> Prop :=
| stepped_nil from : stepped n from []
| stepped_cons from to rest :
    from <= to -> to - from <= n -> stepped n (to + 1) rest ->
    stepped n from (to :: rest).

(** Nodes that know one transaction, with the given receipt and the given
    TransferFrom events in it. *)
Definition demo_nodes_receipt (transaction_id : string)
    (receipt : TransactionReceipt) (event_logs : list EventData)
  : NodeConnections :=
  {| get_block_number := [Ok 10];
     get_transaction_count := fun _ => [Ok 7; Ok 9];
     get_transaction_receipt := fun id =>
       if String.eqb id transaction_id then Ok receipt
       else Raise (OtherException "TransactionNotFound");
     getTokenRecord := fun _ _ => Ok [PyBool true; PyInt 0];
     isValidValidatorNodeNonce := fun _ _ => Ok true;
     getExternalTokenRecord := fun _ _ _ => Ok [PyBool false; PyStr ""];
     decimals := fun _ => Ok (PyInt 8);
     getValidatorNodes := fun _ => Ok [address_2];
     verifyTransferTo := fun _ _ _ _ => Ok tt;
     TransferFrom_get_logs := fun _ _ _ => Ok [];
     TransferFrom_process_receipt := fun _ _ => Ok event_logs |}.

(** * Properties *)

(** ** The hash function on its test vectors *)

Example keccak256_empty :
  hex_of_bytes (Keccak.keccak256 []) =
  "c5d2460186f7233c927e7db2dcc703c0e500b653ca82273b7bfad8045d85a470"%string.
Proof. vm_compute. reflexivity. Qed.

Example keccak256_abc :
  hex_of_bytes (Keccak.keccak256 (bytes_of_string "abc")) =
  "4e03657aea45a94fc7d47ba826c8d667c0d1e6e33a64a036ec44f58fa12d6c45"%string.
Proof. vm_compute. reflexivity. Qed.

Example checksum_address_1 : is_checksum_address address_1 = true.
Proof. vm_compute. reflexivity. Qed.

Example checksum_address_lower :
  is_checksum_address "0x5aaeb6053f3e94c9b9a09f33669435e7ef1beaed" = false.
Proof. vm_compute. reflexivity. Qed.

(** ** The result monad *)

Lemma bind_Ok {A B} (r : result A) (f : A -> result B) (b : B) :
  r ≫= f = Ok b <-> exists a, r = Ok a /\ f a = Ok b.
Proof.
  destruct r as [a | e]; simpl.
  - split; [eauto | intros (a' & [= <-] & H); exact H].
  - split; [discriminate | intros (a' & [=] & _)].
Qed.

Lemma assert_Ok (b : bool) (u : unit) : assert b = Ok u <-> b = true.
Proof. destruct u, b; simpl; split; (reflexivity || discriminate). Qed.

Lemma mapM_cons {A B} (f : A -> result B) (x : A) (l : list A) :
  mapM f (x :: l) = y ← f x; k ← mapM f l; Ok (y :: k).
Proof. reflexivity. Qed.

Lemma mapM_Ok_Forall {A B} (f : A -> result B) (P : B -> Prop) l k :
  (forall x y, f x = Ok y -> P y) -> mapM f l = Ok k -> Forall P k.
Proof.
  intros Hf. revert k. induction l as [| x l IH]; intros k.
  - intros [= <-]. constructor.
  - rewrite mapM_cons. intros H.
    apply bind_Ok in H as (y & Hy & H).
    apply bind_Ok in H as (k' & Hk' & [= <-]).
    constructor; eauto.
Qed.

Lemma mapM_Raise_elem {A B} (f : A -> result B) l x :
  x ∈ l -> (exists e, f x = Raise e) -> exists e, mapM f l = Raise e.
Proof.
  intros Hin Hx. induction l as [| y l IH]; [inversion Hin |].
  rewrite mapM_cons. apply elem_of_cons in Hin as [<- | Hin].
  - destruct Hx as [e ->]. eauto.
  - destruct (f y) as [b | e]; simpl; [| eauto].
    destruct (IH Hin) as [e ->]. simpl. eauto.
Qed.

(** ** The transaction id check *)

Lemma rmatch_Rep_S r n st :
  rmatch (Rep r (S n)) st =
  match rmatch r st with
  | Some st' => rmatch (Rep r n) st'
  | None => None
  end.
Proof. reflexivity. Qed.

Lemma rmatch_Rep_Class ranges n k s k' s' :
  rmatch (Rep (Class ranges) n) (k, s) = Some (k', s') <->
  exists digits,
    s = String.append digits s' /\ String.length digits = n
    /\ string_forallb (in_class ranges) digits = true /\ k' = (k + n)%nat.
Proof.
  revert k s. induction n as [| n IH]; intros k s.
  - simpl. split.
    + intros [= <- <-]. exists EmptyString. repeat split. lia.
    + intros (d & -> & Hlen & _ & ->). destruct d; [| discriminate].
      simpl. do 2 f_equal. lia.
  - rewrite rmatch_Rep_S. destruct s as [| c s].
    + change (rmatch (Class ranges) (k, EmptyString)) with (@None (nat * string)).
      split; [discriminate |].
      intros (d & Hd & Hlen & _). destruct d; discriminate.
    + change (rmatch (Class ranges) (k, String c s))
        with (if in_class ranges c then Some (S k, s) else None).
      destruct (in_class ranges c) eqn:Hc.
      * rewrite IH. split.
        -- intros (d & -> & Hlen & Hall & ->). exists (String c d).
           simpl. rewrite Hc, Hall, Hlen. repeat split. lia.
        -- intros (d & Hd & Hlen & Hall & ->).
           destruct d as [| c0 d]; [discriminate |]. simpl in *.
           injection Hd as <- ->. injection Hlen as Hlen.
           rewrite Hc in Hall. exists d. repeat split; auto; lia.
      * split; [discriminate |].
        intros (d & Hd & Hlen & Hall & _).
        destruct d as [| c0 d]; [discriminate |]. simpl in *.
        injection Hd as <- ->. rewrite Hc in Hall. discriminate.
Qed.

Lemma hex_class_char c :
  in_class [("a", "f"); ("A", "F"); ("0", "9")]%char c = is_hex_char c.
Proof. destruct c as [[] [] [] [] [] [] [] []]; reflexivity. Qed.

Lemma string_forallb_ext p q s :
  (forall c, p c = q c) -> string_forallb p s = string_forallb q s.
Proof. intros H. induction s; simpl; [reflexivity | now rewrite H, IHs]. Qed.

Lemma append_empty_r s : String.append s EmptyString = s.
Proof.
  induction s as [| a s IH]; [reflexivity |].
  change (String a (String.append s EmptyString) = String a s).
  now rewrite IH.
Qed.

Lemma append_String a s t :
  String.append (String a s) t = String a (String.append s t).
Proof. reflexivity. Qed.

Lemma length_append s t :
  String.length (String.append s t) = (String.length s + String.length t)%nat.
Proof.
  induction s as [| a s IH]; [reflexivity |].
  rewrite append_String. simpl. now rewrite IH.
Qed.

Lemma rmatch_Cat r1 r2 st :
  rmatch (Cat r1 r2) st =
  match rmatch r1 st with
  | Some st' => rmatch r2 st'
  | None => None
  end.
Proof. reflexivity. Qed.

Lemma rmatch_Chr c k s :
  rmatch (Chr c) (k, s) =
  match s with
  | String d s' => if Ascii.eqb c d then Some (S k, s') else None
  | EmptyString => None
  end.
Proof. reflexivity. Qed.

Lemma rmatch_transaction_id s k' s' :
  rmatch _TRANSACTION_ID_PATTERN (O, s) = Some (k', s') <->
  k' = 66%nat /\
  exists digits,
    s = String "0" (String "x" (String.append digits s'))
    /\ String.length digits = 64%nat
    /\ string_forallb is_hex_char digits = true.
Proof.
  unfold _TRANSACTION_ID_PATTERN.
  rewrite rmatch_Cat.
  change (rmatch Bol (O, s)) with (Some (O, s)). cbv beta iota.
  rewrite rmatch_Cat, rmatch_Chr.
  destruct s as [| c0 s].
  { split; [discriminate | intros (_ & d & [=] & _)]. }
  destruct (Ascii.eqb_spec "0" c0) as [<- | Hne0]; cycle 1.
  { split; [discriminate | intros (_ & d & [= -> _] & _); congruence]. }
  rewrite rmatch_Cat, rmatch_Chr.
  destruct s as [| c1 s].
  { split; [discriminate | intros (_ & d & [=] & _)]. }
  destruct (Ascii.eqb_spec "x" c1) as [<- | Hne1]; cycle 1.
  { split; [discriminate | intros (_ & d & [= -> _] & _); congruence]. }
  rewrite rmatch_Rep_Class. split.
  - intros (d & -> & Hlen & Hall & ->). split; [reflexivity |].
    exists d. repeat split; auto.
    rewrite <- (string_forallb_ext _ _ _ hex_class_char). exact Hall.
  - intros (-> & d & [= ->] & Hlen & Hall). exists d. repeat split; auto.
    rewrite (string_forallb_ext _ _ _ hex_class_char). exact Hall.
Qed.

(** C4, as amended: a transaction id is valid exactly when it is 0x
    followed by 64 hexadecimal digits of either case and nothing else; a
    string with further characters after such an id is rejected. *)
Theorem is_valid_transaction_id_exact (transaction_id : string) :
  is_valid_transaction_id transaction_id = true <->
  exists digits,
    transaction_id = String "0" (String "x" digits)
    /\ String.length digits = 64%nat
    /\ string_forallb is_hex_char digits = true.
Proof.
  unfold is_valid_transaction_id, re_fullmatch.
  destruct (rmatch _TRANSACTION_ID_PATTERN (O, transaction_id))
    as [[k' s'] |] eqn:Hm.
  - apply rmatch_transaction_id in Hm as (-> & d & -> & Hlen & Hall).
    destruct s' as [| c s'].
    + rewrite append_empty_r. split; [eauto | reflexivity].
    + split; [discriminate |].
      intros (d' & [= Hd] & Hlen' & _). exfalso.
      apply (f_equal String.length) in Hd.
      rewrite length_append in Hd. simpl in Hd. lia.
  - split; [discriminate |].
    intros (d & -> & Hlen & Hall).
    assert (rmatch _TRANSACTION_ID_PATTERN
              (O, String "0" (String "x" d)) = Some (66%nat, EmptyString))
      as H; [| congruence].
    apply rmatch_transaction_id. split; [reflexivity |].
    exists d. rewrite append_empty_r. auto.
Qed.

(** C4, counterexample: a valid id of 66 characters followed by one more
    character has a valid 66-character prefix, which the prefix match of
    the specification accepts, and the client rejects it. *)
Lemma is_valid_transaction_id_rejects_trailing :
  let transaction_id :=
    "0xaaaaaaaaaaaaaaaaaaaaaaaaaaaaaaaaaaaaaaaaaaaaaaaaaaaaaaaaaaaaaaaa" in
  is_valid_transaction_id transaction_id = true
  /\ spec_is_valid_transaction_id (String.append transaction_id "0") = true
  /\ is_valid_transaction_id (String.append transaction_id "0") = false.
Proof. vm_compute. repeat split. Qed.

(** ** Reading an external token address *)

(** C10: when the Hub returns the record (active, address), the client
    returns the address if the record is active and None otherwise, so it
    returns None exactly when the active flag is false. *)
Theorem read_external_token_address_active_record
    (self : EthereumClient) (token_address : string)
    (external_blockchain : Blockchain) (node_connections : NodeConnections)
    (active : bool) (external_token_address : string) :
  __create_node_connections self = Ok node_connections ->
  getExternalTokenRecord node_connections (_create_hub_contract self None)
    token_address (Blockchain_value external_blockchain)
  = Ok [PyBool active; PyStr external_token_address] ->
  read_external_token_address self token_address external_blockchain
  = Ok (if active then Some external_token_address else None)
  /\ (read_external_token_address self token_address external_blockchain
      = Ok None <-> active = false).
Proof.
  intros Hnc Hrecord.
  assert (read_external_token_address self token_address external_blockchain
          = Ok (if active then Some external_token_address else None)) as H.
  { unfold read_external_token_address, read_external_token_address_body.
    rewrite Hnc. cbn [mbind result_bind]. rewrite Hrecord.
    cbn [mbind result_bind]. destruct active; reflexivity. }
  split; [exact H |]. rewrite H.
  destruct active; split; (reflexivity || discriminate).
Qed.

Lemma read_external_token_address_active_record_witness :
  read_external_token_address
    (demo_client 10
       (demo_nodes [Ok 5] (Ok [PyBool true; PyStr address_2]) (Ok tt)
          demo_chain)
       (Ok "tx"))
    address_1 BNB_CHAIN
  = Ok (Some address_2).
Proof.
  refine (proj1 (read_external_token_address_active_record
                   _ address_1 BNB_CHAIN _ true address_2 _ _));
    reflexivity.
Defined.

(** ** Mapping TransferFrom events *)

Lemma Blockchain_eqb_eq a b : Blockchain_eqb a b = true <-> a = b.
Proof. destruct a, b; simpl; split; (reflexivity || discriminate). Qed.

Lemma Blockchain_value_inj a b :
  Blockchain_value a = Blockchain_value b -> a = b.
Proof. destruct a, b; simpl; intros H; (reflexivity || discriminate H). Qed.

Lemma Blockchain_of_value_value b :
  Blockchain_of_value (Blockchain_value b) = Some b.
Proof. destruct b; reflexivity. Qed.

Ltac bind_inversion H :=
  repeat
    (let x := fresh "x" in
     let Hx := fresh "Hx" in
     apply bind_Ok in H as (x & Hx & H)).

Lemma create_outgoing_transfer_Ok hub_contract_address event_log t :
  create_outgoing_transfer hub_contract_address event_log = Ok t ->
  exists id,
    ev_args event_log !! "destinationBlockchainId" = Some id
    /\ Blockchain_init id = Ok (destination_blockchain t)
    /\ source_blockchain t = get_blockchain
    /\ destination_blockchain t <> get_blockchain.
Proof.
  unfold create_outgoing_transfer. intros H.
  bind_inversion H. injection H as <-. cbn [source_blockchain destination_blockchain].
  match goal with
  | Hg : getitem _ "destinationBlockchainId" = Ok ?v |- _ =>
      exists v; unfold getitem in Hg;
      destruct (ev_args event_log !! "destinationBlockchainId")
        as [id |] eqn:Hid; [injection Hg as -> | discriminate Hg]
  end.
  match goal with
  | Hb : Blockchain_init _ = Ok ?b,
    Ha : assert (negb (Blockchain_eqb get_blockchain ?b)) = Ok _ |- _ =>
      apply assert_Ok, negb_true_iff in Ha; repeat split; auto;
      intros ->; discriminate Ha
  end.
Qed.

(** C9: an event whose destination blockchain id is the id of the
    client's own blockchain makes the mapping raise, and every transfer
    the mapping returns has a destination blockchain that differs from its
    source blockchain. *)
Theorem create_outgoing_transfers_distinct_blockchains
    (event_logs : list EventData) (hub_contract_address : string) :
  (forall event_log id,
     event_log ∈ event_logs ->
     ev_args event_log !! "destinationBlockchainId" = Some id ->
     isinstance_int id = true ->
     int_of id = Blockchain_value get_blockchain ->
     exists e,
       __create_outgoing_transfers event_logs hub_contract_address = Raise e)
  /\ (forall transfers,
        __create_outgoing_transfers event_logs hub_contract_address
        = Ok transfers ->
        Forall (fun t => source_blockchain t <> destination_blockchain t)
          transfers).
Proof.
  split.
  - intros event_log id Hin Hid _ Hown.
    apply mapM_Raise_elem with (x := event_log); [exact Hin |].
    destruct (create_outgoing_transfer hub_contract_address event_log)
      as [t | e] eqn:Ht; [| eauto].
    apply create_outgoing_transfer_Ok in Ht as (id' & Hid' & Hinit & _ & Hne).
    rewrite Hid in Hid'. injection Hid' as <-.
    unfold Blockchain_init in Hinit. rewrite Hown in Hinit.
    rewrite Blockchain_of_value_value in Hinit. injection Hinit as Heq.
    congruence.
  - intros transfers. apply mapM_Ok_Forall.
    intros event_log t Ht.
    apply create_outgoing_transfer_Ok in Ht as (_ & _ & _ & Hsrc & Hne).
    congruence.
Qed.

Lemma create_outgoing_transfers_distinct_blockchains_witness :
  (exists e,
     __create_outgoing_transfers [demo_event 5 1; demo_event 6 0] address_1
     = Raise e)
  /\ Forall (fun t => source_blockchain t <> destination_blockchain t)
       [{| source_blockchain := ETHEREUM;
           destination_blockchain := BNB_CHAIN;
           source_hub_address := address_1;
           source_transfer_id := 5;
           source_transaction_id := "0x0102";
           source_block_number := 5;
           source_block_hash := "0x03";
           sender_address := address_1;
           recipient_address := address_2;
           source_token_address := address_1;
           destination_token_address := address_2;
           amount := 50;
           fee := 1;
           service_node_address := address_2;
           is_reversal_transfer := false |}].
Proof.
  split.
  - refine (proj1 (create_outgoing_transfers_distinct_blockchains
                     [demo_event 5 1; demo_event 6 0] address_1)
              (demo_event 6 0) (PyInt 0) _ _ _ _).
    + apply elem_of_cons. right. apply elem_of_cons. left. reflexivity.
    + vm_compute. reflexivity.
    + reflexivity.
    + reflexivity.
  - refine (proj2 (create_outgoing_transfers_distinct_blockchains
                     [demo_event 5 1] address_1) _ _).
    vm_compute. reflexivity.
Defined.

Example create_outgoing_transfers_own_blockchain :
  __create_outgoing_transfers [demo_event 5 1; demo_event 6 0] address_1
  = Raise AssertionError.
Proof. vm_compute. reflexivity. Qed.

(** ** Reading the outgoing transfers from a block *)

Lemma fold_left_min_spec vs v :
  let m := fold_left Z.min vs v in
  m ∈ v :: vs /\ Forall (fun w => m <= w) (v :: vs).
Proof.
  revert v. induction vs as [| w vs IH]; intros v; simpl.
  - split; [apply elem_of_cons; left; reflexivity |].
    repeat constructor. lia.
  - destruct (IH (Z.min v w)) as [Hin Hall]. simpl in Hin, Hall.
    apply Forall_cons in Hall as [Hm Hall]. split.
    + apply elem_of_cons in Hin as [Hin | Hin].
      * rewrite Hin. destruct (Z.min_spec v w) as [[_ ->] | [_ ->]].
        -- apply elem_of_cons. left. reflexivity.
        -- apply elem_of_cons. right. apply elem_of_cons. left. reflexivity.
      * do 2 (apply elem_of_cons; right). exact Hin.
    + repeat (apply Forall_cons; split); auto; lia.
Qed.

Lemma get_minimum_result_spec rs m :
  get_minimum_result rs = Ok m <->
  m ∈ successes rs /\ Forall (fun v => m <= v) (successes rs).
Proof.
  unfold get_minimum_result. destruct (successes rs) as [| v vs].
  - split; [discriminate | intros [Hin _]; inversion Hin].
  - pose proof (fold_left_min_spec vs v) as [Hin Hall]. simpl in Hin, Hall.
    split.
    + intros [= <-]. auto.
    + intros [Hin' Hall']. f_equal.
      rewrite Forall_forall in Hall, Hall'.
      specialize (Hall _ Hin'). specialize (Hall' _ Hin). lia.
Qed.

(** C3, as amended: the height the client works with is the least of the
    block numbers the nodes answered with (the minimum policy), and a
    starting block above it gives the empty list with that height. *)
Theorem read_outgoing_transfers_from_block_above_minimum
    (self : EthereumClient) (node_connections : NodeConnections)
    (from_block_number latest_block_number : Z) :
  __create_node_connections self = Ok node_connections ->
  latest_block_number ∈ successes (get_block_number node_connections) ->
  Forall (fun v => latest_block_number <= v)
    (successes (get_block_number node_connections)) ->
  from_block_number > latest_block_number ->
  read_outgoing_transfers_from_block self from_block_number
  = Ok {| outgoing_transfers := [];
          to_block_number := latest_block_number |}.
Proof.
  intros Hnc Hin Hall Hfrom.
  assert (get_minimum_result (get_block_number node_connections)
          = Ok latest_block_number) as Hmin
    by (apply get_minimum_result_spec; auto).
  unfold read_outgoing_transfers_from_block,
    read_outgoing_transfers_from_block_body.
  rewrite Hnc, Hmin.
  destruct (Z.gtb_spec from_block_number latest_block_number); [| lia].
  reflexivity.
Qed.

Lemma read_outgoing_transfers_from_block_above_minimum_witness :
  read_outgoing_transfers_from_block
    (demo_client 10
       (demo_nodes [Ok 5; Raise (OtherException "Timeout"); Ok 9]
          (Ok []) (Ok tt) demo_chain)
       (Ok "tx"))
    7
  = Ok {| outgoing_transfers := []; to_block_number := 5 |}.
Proof.
  refine (read_outgoing_transfers_from_block_above_minimum _ _ 7 5 _ _ _ _).
  - reflexivity.
  - apply elem_of_cons. left. reflexivity.
  - repeat constructor; simpl; lia.
  - lia.
Defined.

(** C3, counterexample: with the nodes at blocks 5 and 9 the greatest
    response is 9, which the starting block 7 does not exceed, and the
    client returns the empty list with the height 5. *)
Lemma read_outgoing_transfers_from_block_not_maximum :
  let nodes := demo_nodes [Ok 5; Ok 9] (Ok []) (Ok tt) demo_chain in
  get_maximum_result (get_block_number nodes) = Ok 9
  /\ (7 >? 9) = false
  /\ read_outgoing_transfers_from_block (demo_client 10 nodes (Ok "tx")) 7
     = Ok {| outgoing_transfers := []; to_block_number := 5 |}.
Proof. vm_compute. repeat split. Qed.

(** ** The block chunks *)

Lemma logs_between_split {A} (chain : Z -> list A) a m b :
  a <= m + 1 -> m <= b ->
  logs_between chain a b
  = logs_between chain a m ++ logs_between chain (m + 1) b.
Proof.
  intros Ham Hmb. unfold logs_between.
  replace (b - a + 1) with ((m - a + 1) + (b - (m + 1) + 1)) by lia.
  rewrite seqZ_app by lia. rewrite flat_map_app.
  do 3 f_equal. lia.
Qed.

Lemma read_event_logs_ext {A} (g g' : Z -> Z -> result (list A)) tos from acc :
  (forall a b, g a b = g' a b) ->
  read_event_logs g tos from acc = read_event_logs g' tos from acc.
Proof.
  intros Hg. revert from acc.
  induction tos as [| to tos IH]; intros from acc; simpl; [reflexivity |].
  rewrite Hg. destruct (to >=? from); [| reflexivity].
  destruct (g' from to); [apply IH | reflexivity].
Qed.

Lemma ascending_last tos latest from :
  ascending from (tos ++ [latest]) -> from <= latest.
Proof.
  revert from. induction tos as [| to tos IH]; intros from H;
    inversion H as [| ? ? ? Hle Hrest]; subst; [exact Hle |].
  specialize (IH _ Hrest). lia.
Qed.

Lemma read_event_logs_ascending {A} (chain : Z -> list A) tos latest from acc :
  ascending from (tos ++ [latest]) ->
  read_event_logs (fun a b => Ok (logs_between chain a b))
    (tos ++ [latest]) from acc
  = (latest + 1, Ok (acc ++ logs_between chain from latest)).
Proof.
  revert from acc. induction tos as [| to tos IH]; intros from acc Hasc.
  - inversion Hasc as [| ? ? ? Hle _]; subst. simpl.
    destruct (Z.geb_spec latest from); [reflexivity | lia].
  - inversion Hasc as [| ? ? ? Hle Hrest]; subst.
    change ((to :: tos) ++ [latest]) with (to :: (tos ++ [latest])).
    cbn [read_event_logs].
    destruct (Z.geb_spec to from); [| lia].
    rewrite IH by exact Hrest. rewrite <- app_assoc.
    apply ascending_last in Hrest.
    rewrite <- logs_between_split; [reflexivity | lia | lia].
Qed.

Lemma read_event_logs_chunks tos latest from acc :
  ascending from (tos ++ [latest]) ->
  exists chunks,
    read_event_logs (fun a b => Ok [(a, b)]) (tos ++ [latest]) from acc
    = (latest + 1, Ok (acc ++ chunks))
    /\ covers from latest chunks.
Proof.
  revert from acc. induction tos as [| to tos IH]; intros from acc Hasc.
  - inversion Hasc as [| ? ? ? Hle _]; subst. exists [(from, latest)].
    simpl. destruct (Z.geb_spec latest from); [| lia].
    split; [reflexivity | now constructor].
  - inversion Hasc as [| ? ? ? Hle Hrest]; subst.
    destruct (IH (to + 1) (acc ++ [(from, to)]) Hrest) as (cs & Hcs & Hcov).
    exists ((from, to) :: cs).
    change ((to :: tos) ++ [latest]) with (to :: (tos ++ [latest])).
    cbn [read_event_logs].
    destruct (Z.geb_spec to from); [| lia].
    rewrite Hcs, <- app_assoc. split; [reflexivity | now constructor].
Qed.

Lemma ascending_range n latest len s from :
  0 < n -> from <= s ->
  (len = O -> from <= latest) ->
  (len <> O -> s + (Z.of_nat len - 1) * n < latest) ->
  ascending from
    (map (fun i => s + Z.of_nat i * n) (seq 0 len) ++ [latest]).
Proof.
  intros Hn. revert s from.
  induction len as [| len IH]; intros s from Hs H0 Hlast.
  - simpl. constructor; [auto | constructor].
  - cbn [seq map app]. rewrite <- seq_shift, map_map.
    constructor; [simpl; lia |].
    replace (s + Z.of_nat 0 * n + 1) with (s + 1) by lia.
    erewrite map_ext; [apply (IH (s + n) (s + 1)) |].
    + lia.
    + intros ->. specialize (Hlast ltac:(discriminate)). simpl in Hlast. lia.
    + intros Hlen. specialize (Hlast ltac:(discriminate)). lia.
    + intros i. simpl. lia.
Qed.

Lemma to_block_numbers_ascending from n latest :
  from <= latest -> n <> 0 ->
  exists r,
    to_block_numbers_of from n latest = Ok (r ++ [latest])
    /\ ascending from (r ++ [latest]).
Proof.
  intros Hle Hn. unfold to_block_numbers_of, py_range.
  destruct (Z.eqb_spec n 0) as [| _]; [contradiction |].
  cbn [mbind result_bind]. eexists. split; [reflexivity |].
  destruct (Z.ltb_spec 0 n) as [Hpos | Hneg].
  - destruct (Z.ltb_spec (from + n) latest) as [Hlt | Hge].
    + apply ascending_range; try lia.
      intros _.
      assert (0 <= (latest - (from + n) - 1) / n) as Hq
        by (apply Z.div_pos; lia).
      pose proof (Z.mul_div_le (latest - (from + n) - 1) n Hpos) as Hm.
      revert Hq Hm. generalize ((latest - (from + n) - 1) / n).
      intros q Hq Hm. rewrite Z2Nat.id by lia. nia.
    + simpl. constructor; [lia | constructor].
  - destruct (Z.ltb_spec latest (from + n)); [lia |].
    simpl. constructor; [lia | constructor].
Qed.

(** C5: for a block range from..latest and a chunk size other than
    zero, the ranges the client asks for follow each other from the first
    to the last block without gap or overlap, and against nodes that see
    one chain the logs gathered chunk by chunk are the logs of one fetch
    over the whole range, so the transfers are those of that one fetch. *)
Theorem read_outgoing_transfers_from_block_chunks
    (self : EthereumClient) (node_connections : NodeConnections)
    (chain : Z -> list EventData) (from_block_number latest_block_number : Z) :
  let number_blocks := outgoing_transfers_number_blocks (config self) in
  let get_logs :=
    TransferFrom_get_logs node_connections (_create_hub_contract self None) in
  __create_node_connections self = Ok node_connections ->
  get_minimum_result (get_block_number node_connections)
  = Ok latest_block_number ->
  (forall a b, get_logs a b = Ok (logs_between chain a b)) ->
  from_block_number <= latest_block_number ->
  number_blocks <> 0 ->
  exists to_block_numbers chunks,
    to_block_numbers_of from_block_number number_blocks latest_block_number
    = Ok to_block_numbers
    /\ block_chunks to_block_numbers from_block_number = Ok chunks
    /\ covers from_block_number latest_block_number chunks
    /\ snd (read_event_logs get_logs to_block_numbers from_block_number [])
       = Ok (logs_between chain from_block_number latest_block_number)
    /\ snd (read_outgoing_transfers_from_block_body self from_block_number)
       = (transfers ←
            __create_outgoing_transfers
              (logs_between chain from_block_number latest_block_number)
              (hub (config self));
          Ok {| outgoing_transfers := transfers;
                to_block_number := latest_block_number |}).
Proof.
  intros number_blocks get_logs Hnc Hmin Hlogs Hle Hn.
  destruct (to_block_numbers_ascending from_block_number number_blocks
              latest_block_number Hle Hn) as (r & Htos & Hasc).
  destruct (read_event_logs_chunks r latest_block_number from_block_number
              [] Hasc) as (chunks & Hchunks & Hcov).
  pose proof (read_event_logs_ascending chain r latest_block_number
                from_block_number [] Hasc) as Hread.
  rewrite <- (read_event_logs_ext get_logs) in Hread by exact Hlogs.
  exists (r ++ [latest_block_number]), chunks.
  split; [exact Htos |].
  split; [unfold block_chunks; now rewrite Hchunks |].
  split; [exact Hcov |].
  split; [now rewrite Hread |].
  unfold read_outgoing_transfers_from_block_body.
  rewrite Hnc, Hmin.
  destruct (Z.gtb_spec from_block_number latest_block_number); [lia |].
  fold number_blocks. rewrite Htos. fold get_logs. rewrite Hread.
  reflexivity.
Qed.

Lemma read_outgoing_transfers_from_block_chunks_witness :
  let self :=
    demo_client 3 (demo_nodes [Ok 10; Ok 12] (Ok []) (Ok tt) demo_chain)
      (Ok "tx") in
  exists to_block_numbers chunks,
    to_block_numbers_of 2 3 10 = Ok to_block_numbers
    /\ block_chunks to_block_numbers 2 = Ok chunks
    /\ covers 2 10 chunks
    /\ snd (read_event_logs
              (fun a b => Ok (logs_between demo_chain a b))
              to_block_numbers 2 [])
       = Ok (logs_between demo_chain 2 10)
    /\ snd (read_outgoing_transfers_from_block_body self 2)
       = (transfers ←
            __create_outgoing_transfers (logs_between demo_chain 2 10)
              address_1;
          Ok {| outgoing_transfers := transfers; to_block_number := 10 |}).
Proof.
  refine (read_outgoing_transfers_from_block_chunks
            (demo_client 3
               (demo_nodes [Ok 10; Ok 12] (Ok []) (Ok tt) demo_chain)
               (Ok "tx"))
            (demo_nodes [Ok 10; Ok 12] (Ok []) (Ok tt) demo_chain)
            demo_chain 2 10 _ _ _ _ _).
  - reflexivity.
  - reflexivity.
  - intros a b. reflexivity.
  - lia.
  - simpl. lia.
Defined.

Example block_chunks_2_10 :
  to_block_numbers_of 2 3 10 = Ok [5; 8; 10]
  /\ block_chunks [5; 8; 10] 2 = Ok [(2, 5); (6, 8); (9, 10)].
Proof. split; reflexivity. Qed.

(** With a chunk size of zero [range] raises and nothing is read. *)
Example read_outgoing_transfers_from_block_zero_chunk :
  read_outgoing_transfers_from_block
    (demo_client 0 (demo_nodes [Ok 10] (Ok []) (Ok tt) demo_chain) (Ok "tx")) 2
  = Raise (_create_error
             "unable to read outgoing transfers from a starting block"
             [("from_block_number", DInt 2)]).
Proof. reflexivity. Qed.

(** ** The nonce of a submission *)

Lemma get_nonce_stored self db nc id db1 nonce :
  __get_nonce self db nc id = (db1, Ok nonce) ->
  read_transfer_nonce id db1 = Some nonce.
Proof.
  unfold __get_nonce.
  destruct (get_maximum_result _) as [count |]; [| discriminate].
  destruct (read_transfer_nonce id _) as [n |] eqn:Hn; [| discriminate].
  intros [= <- <-]. exact Hn.
Qed.

(** C2: when the submission is rejected with a nonce-too-low or an
    underpriced error, the nonce stored for the internal transfer id is
    cleared and the same error is raised again; after any other failure of
    the submission the stored nonce is left as it was. *)
Theorem submit_transfer_to_request_resets_nonce
    (self : EthereumClient) (db db1 : gmap Z Z)
    (node_connections : NodeConnections) (internal_transfer_id nonce : Z)
    (on_chain_request : _OnChainTransferToRequest) (signature : bytes)
    (e : exn) :
  __get_nonce self db node_connections internal_transfer_id
  = (db1, Ok nonce) ->
  start_transaction_submission (utilities self)
    (transfer_to_submission_request self on_chain_request signature nonce)
    node_connections
  = Raise e ->
  exists db',
    __submit_transfer_to_request self db node_connections
      internal_transfer_id on_chain_request signature
    = (db', Raise e)
    /\ (e = TransactionNonceTooLowError \/ e = TransactionUnderpricedError ->
        db' = reset_transfer_nonce internal_transfer_id db1
        /\ read_transfer_nonce internal_transfer_id db' = None)
    /\ (e <> TransactionNonceTooLowError ->
        e <> TransactionUnderpricedError ->
        db' = db1
        /\ read_transfer_nonce internal_transfer_id db' = Some nonce).
Proof.
  intros Hnonce Hsubmit.
  pose proof (get_nonce_stored _ _ _ _ _ _ Hnonce) as Hstored.
  unfold __submit_transfer_to_request. rewrite Hnonce, Hsubmit.
  destruct e;
    (eexists; split; [reflexivity |]; split;
     [ intros [He | He]; try discriminate He;
       (split; [reflexivity | apply lookup_delete_eq])
     | intros H1 H2; try congruence;
       (split; [reflexivity | exact Hstored]) ]).
Qed.

Lemma submit_transfer_to_request_resets_nonce_witness :
  let self :=
    demo_client 10 (demo_nodes [Ok 10] (Ok []) (Ok tt) demo_chain)
      (Raise TransactionUnderpricedError) in
  exists db',
    __submit_transfer_to_request self {[ 1 := 4 ]}
      (demo_nodes [Ok 10] (Ok []) (Ok tt) demo_chain) 1
      (on_chain_transfer_to_request demo_request) [Byte.x01]
    = (db', Raise TransactionUnderpricedError)
    /\ (TransactionUnderpricedError = TransactionNonceTooLowError
        \/ TransactionUnderpricedError = TransactionUnderpricedError ->
        db' = reset_transfer_nonce 1 {[ 1 := 4 ]}
        /\ read_transfer_nonce 1 db' = None)
    /\ (TransactionUnderpricedError <> TransactionNonceTooLowError ->
        TransactionUnderpricedError <> TransactionUnderpricedError ->
        db' = {[ 1 := 4 ]} /\ read_transfer_nonce 1 db' = Some 4).
Proof.
  refine (submit_transfer_to_request_resets_nonce
            (demo_client 10 (demo_nodes [Ok 10] (Ok []) (Ok tt) demo_chain)
               (Raise TransactionUnderpricedError))
            {[ 1 := 4 ]} {[ 1 := 4 ]}
            (demo_nodes [Ok 10] (Ok []) (Ok tt) demo_chain) 1 4
            (on_chain_transfer_to_request demo_request) [Byte.x01]
            TransactionUnderpricedError _ _).
  - reflexivity.
  - reflexivity.
Defined.

(** A failure to read the transaction count leaves the store as it was. *)
Lemma submit_transfer_to_request_nonce_failure self db nc id request sig db1 e :
  __get_nonce self db nc id = (db1, Raise e) ->
  db1 = db /\ __submit_transfer_to_request self db nc id request sig
             = (db, Raise e).
Proof.
  intros Hnonce. unfold __submit_transfer_to_request. rewrite Hnonce.
  unfold __get_nonce in Hnonce.
  destruct (get_maximum_result _) as [count |].
  - unfold read_transfer_nonce, update_transfer_nonce in Hnonce.
    destruct (db !! id) as [n |] eqn:Hn.
    + rewrite Hn in Hnonce. discriminate.
    + rewrite lookup_insert_eq in Hnonce. discriminate.
  - injection Hnonce as <- <-. auto.
Qed.

(** ** Rejections of the verification call *)

(** C6: when the verification call is rejected by the contract, a reason
    with the forwarder message gives the non-matching forwarder error with
    the source blockchain, the source transaction id and the destination
    token address; otherwise a reason with the transfer id message gives
    the source-transfer-id-already-used error with the source blockchain,
    the source transfer id and the source transaction id; any other
    rejection leaves the verification as it is and leaves the submission
    as the generic client error. *)
Theorem start_transfer_to_submission_rejections
    (crypto : Account) (self : EthereumClient) (db : gmap Z Z)
    (request : TransferToSubmissionStartRequest)
    (node_connections : NodeConnections) (signature : bytes)
    (reason : string) :
  let transfer := incoming_transfer request in
  let hub_contract := _create_hub_contract self None in
  let on_chain_request := on_chain_transfer_to_request request in
  let verified :=
    __verify_transfer_to_request self hub_contract node_connections transfer
      on_chain_request signature in
  let started := start_transfer_to_submission crypto self db request in
  eventual_destination_blockchain transfer = get_blockchain ->
  __create_node_connections self = Ok node_connections ->
  __create_transfer_to_signature crypto self transfer
    (validator_nonce request) (hub (config self)) (forwarder (config self))
    (pan_token (config self))
  = Ok signature ->
  verifyTransferTo node_connections hub_contract on_chain_request
    [address self] [signature]
  = Raise (ContractLogicError reason) ->
  (contains _NON_MATCHING_FORWARDER_ERROR reason = true ->
   let error :=
     EthereumClientError
       (NonMatchingForwarderError (source_blockchain transfer)
          (source_transaction_id transfer)
          (destination_token_address transfer)) in
   verified = Raise error /\ started = (db, Raise error))
  /\ (contains _NON_MATCHING_FORWARDER_ERROR reason = false ->
      contains _SOURCE_TRANSFER_ID_ALREADY_USED_ERROR reason = true ->
      let error :=
        EthereumClientError
          (SourceTransferIdAlreadyUsedError (source_blockchain transfer)
             (source_transfer_id transfer)
             (source_transaction_id transfer)) in
      verified = Raise error /\ started = (db, Raise error))
  /\ (contains _NON_MATCHING_FORWARDER_ERROR reason = false ->
      contains _SOURCE_TRANSFER_ID_ALREADY_USED_ERROR reason = false ->
      verified = Raise (ContractLogicError reason)
      /\ started
         = (db,
            Raise (_create_error "unable to start a transferTo submission"
                     [("request", DSubmissionRequest request)]))).
Proof.
  intros transfer hub_contract on_chain_request verified started
    Hguard Hnc Hsig Hverify.
  assert (forall r,
            verified = Raise r ->
            started
            = (db,
               try_except (Raise r)
                 (fun e =>
                    match e with
                    | ResultsNotMatchingError => Raise e
                    | EthereumClientError _ => Raise e
                    | _ => Raise (_create_error
                                    "unable to start a transferTo submission"
                                    [("request", DSubmissionRequest request)])
                    end))) as Hstart.
  { intros r Hr. subst started. unfold start_transfer_to_submission.
    fold transfer. rewrite Hguard. cbn [Blockchain_eqb get_blockchain negb].
    unfold start_transfer_to_submission_body, prepare_transfer_to_submission.
    rewrite Hnc. cbn [mbind result_bind]. fold transfer. rewrite Hsig.
    cbn [mbind result_bind]. fold hub_contract on_chain_request verified.
    rewrite Hr. reflexivity. }
  assert (verified
          = if contains _NON_MATCHING_FORWARDER_ERROR reason then
              Raise (EthereumClientError
                       (NonMatchingForwarderError (source_blockchain transfer)
                          (source_transaction_id transfer)
                          (destination_token_address transfer)))
            else if contains _SOURCE_TRANSFER_ID_ALREADY_USED_ERROR reason then
              Raise (EthereumClientError
                       (SourceTransferIdAlreadyUsedError
                          (source_blockchain transfer)
                          (source_transfer_id transfer)
                          (source_transaction_id transfer)))
            else Raise (ContractLogicError reason)) as Hverified.
  { subst verified. unfold __verify_transfer_to_request.
    rewrite Hverify. reflexivity. }
  repeat split.
  - rewrite Hverified, H. reflexivity.
  - rewrite (Hstart _ (eq_trans Hverified ltac:(rewrite H; reflexivity))).
    reflexivity.
  - rewrite Hverified, H, H0. reflexivity.
  - rewrite (Hstart _ (eq_trans Hverified
                         ltac:(rewrite H, H0; reflexivity))).
    reflexivity.
  - rewrite Hverified, H, H0. reflexivity.
  - rewrite (Hstart _ (eq_trans Hverified
                         ltac:(rewrite H, H0; reflexivity))).
    reflexivity.
Qed.

Lemma start_transfer_to_submission_rejections_witness :
  let nodes :=
    demo_nodes [Ok 10] (Ok [])
      (Raise (ContractLogicError
                "execution reverted: PantosHub: source transfer ID already used"))
      demo_chain in
  snd (start_transfer_to_submission toy_account
         (demo_client 10 nodes (Ok "tx")) ∅ demo_request)
  = Raise (EthereumClientError
             (SourceTransferIdAlreadyUsedError BNB_CHAIN 17
                (source_transaction_id demo_transfer))).
Proof.
  intros nodes.
  pose proof (start_transfer_to_submission_rejections toy_account
                (demo_client 10 nodes (Ok "tx")) ∅ demo_request nodes
                demo_signature
                "execution reverted: PantosHub: source transfer ID already used")
    as H.
  cbv zeta in H.
  destruct H as (_ & H & _).
  - reflexivity.
  - reflexivity.
  - vm_compute. reflexivity.
  - reflexivity.
  - destruct H as [_ H].
    + vm_compute. reflexivity.
    + vm_compute. reflexivity.
    + rewrite H. reflexivity.
Defined.

Example start_transfer_to_submission_other_rejection :
  snd (start_transfer_to_submission toy_account
         (demo_client 10
            (demo_nodes [Ok 10] (Ok [])
               (Raise (ContractLogicError "execution reverted")) demo_chain)
            (Ok "tx"))
         ∅ demo_request)
  = Raise (_create_error "unable to start a transferTo submission"
             [("request", DSubmissionRequest demo_request)]).
Proof. vm_compute. reflexivity. Qed.

(** ** Propagation of errors *)

Lemma try_except_wraps {A} message details (body : result A) :
  wraps message details body
    (try_except body
       (fun e =>
          match e with
          | ResultsNotMatchingError => Raise e
          | _ => Raise (_create_error message details)
          end)).
Proof. destruct body as [a | []]; reflexivity. Qed.

Lemma try_except_wraps_foreign {A} message details (body : result A) :
  wraps_foreign message details body
    (try_except body
       (fun e =>
          match e with
          | ResultsNotMatchingError => Raise e
          | EthereumClientError _ => Raise e
          | _ => Raise (_create_error message details)
          end)).
Proof. destruct body as [a | []]; reflexivity. Qed.

(** C8, as amended: in every operation that reads from the nodes or
    submits to them, a [ResultsNotMatchingError] of the try block reaches
    the caller as it is and any other exception reaches the caller as the
    client error with the message of the operation and its parameters;
    but in the submission an exception that already is a client error (the
    non-matching forwarder and the used source transfer id errors) reaches
    the caller as it is.  For the read from a starting block the error
    carries a block number under the name of the parameter. *)
Theorem operations_wrap_errors
    (crypto : Account) (self : EthereumClient) (db : gmap Z Z) :
  (forall token_address,
     wraps "unable to determine if a token is active"
       [("token_address", DStr token_address)]
       (is_token_active_body self token_address)
       (is_token_active self token_address))
  /\ (forall nonce,
        wraps "unable to determine if a validator node nonce is valid"
          [("nonce", DInt nonce)]
          (is_valid_validator_nonce_body self nonce)
          (is_valid_validator_nonce self nonce))
  /\ (forall token_address external_blockchain,
        wraps "unable to read an external token address"
          [("token_address", DStr token_address);
           ("external_blockchain", DBlockchain external_blockchain)]
          (read_external_token_address_body self token_address
             external_blockchain)
          (read_external_token_address self token_address
             external_blockchain))
  /\ (forall from_block_number,
        exists block_number,
          wraps "unable to read outgoing transfers from a starting block"
            [("from_block_number", DInt block_number)]
            (snd (read_outgoing_transfers_from_block_body self
                    from_block_number))
            (read_outgoing_transfers_from_block self from_block_number))
  /\ (forall transaction_id hub_address,
        wraps "unable to read outgoing transfers in a transaction"
          [("transaction_id", DStr transaction_id);
           ("hub_address", DStr hub_address)]
          (read_outgoing_transfers_in_transaction_body self transaction_id
             hub_address)
          (read_outgoing_transfers_in_transaction self transaction_id
             hub_address))
  /\ (forall token_address,
        wraps "unable to read the decimals of a token"
          [("token_address", DStr token_address)]
          (read_token_decimals_body self token_address)
          (read_token_decimals self token_address))
  /\ wraps "unable to read the validator node addresses" []
       (read_validator_node_addresses_body self)
       (read_validator_node_addresses self)
  /\ (forall request,
        if Blockchain_eqb
             (eventual_destination_blockchain (incoming_transfer request))
             get_blockchain
        then
          wraps_foreign "unable to start a transferTo submission"
            [("request", DSubmissionRequest request)]
            (snd (start_transfer_to_submission_body crypto self db request))
            (snd (start_transfer_to_submission crypto self db request))
        else
          start_transfer_to_submission crypto self db request
          = (db,
             Raise (_create_error
                      (String.append
                         "eventual destination blockchain of incoming transfer must be "
                         (blockchain_name self))
                      [("request", DSubmissionRequest request)]))).
Proof.
  repeat split; intros.
  - apply try_except_wraps.
  - apply try_except_wraps.
  - apply try_except_wraps.
  - unfold read_outgoing_transfers_from_block.
    destruct (read_outgoing_transfers_from_block_body self from_block_number)
      as [block_number body].
    exists block_number. apply try_except_wraps.
  - apply try_except_wraps.
  - apply try_except_wraps.
  - apply try_except_wraps.
  - unfold start_transfer_to_submission.
    destruct (Blockchain_eqb _ get_blockchain); [| reflexivity].
    cbn [negb].
    destruct (start_transfer_to_submission_body crypto self db request)
      as [db' body].
    apply try_except_wraps_foreign.
Qed.

(** C8, counterexample: the verification is rejected for a non-matching
    forwarder, the try block of the submission raises the specialized
    error, which is not a [ResultsNotMatchingError], and the caller gets
    that error and not the client error made of the message of the
    operation and the request. *)
Lemma start_transfer_to_submission_does_not_wrap :
  let self :=
    demo_client 10
      (demo_nodes [Ok 10] (Ok [])
         (Raise (ContractLogicError _NON_MATCHING_FORWARDER_ERROR))
         demo_chain)
      (Ok "tx") in
  let error :=
    EthereumClientError
      (NonMatchingForwarderError BNB_CHAIN
         (source_transaction_id demo_transfer) address_1) in
  snd (start_transfer_to_submission_body toy_account self ∅ demo_request)
  = Raise error
  /\ snd (start_transfer_to_submission toy_account self ∅ demo_request)
     = Raise error
  /\ error <> ResultsNotMatchingError
  /\ error <> _create_error "unable to start a transferTo submission"
               [("request", DSubmissionRequest demo_request)].
Proof.
  intros self error. split; [vm_compute; reflexivity |].
  split; [vm_compute; reflexivity |].
  split; discriminate.
Qed.

(** ** Recovering the signer of a transferTo message *)





(** The recovery reads the signature: the same request with the signature
    of another key is recovered to the address of that other key. *)
Example recover_transfer_to_signer_address_other_key :
  let self :=
    demo_client 10 (demo_nodes [Ok 10] (Ok []) (Ok tt) demo_chain) (Ok "tx") in
  recover_transfer_to_signer_address toy_account self
    (recovery_request_of demo_transfer 5 demo_signer_signature)
  = Ok "0x07"%string
  /\ recover_transfer_to_signer_address toy_account self
       (recovery_request_of demo_transfer 5 demo_signature)
     = Ok "0x2a"%string.
Proof. vm_compute. split; reflexivity. Qed.

(** ** The canonical transferTo message *)

Lemma string_forallb_append p s t :
  string_forallb p (String.append s t)
  = string_forallb p s && string_forallb p t.
Proof.
  induction s as [| a s IH]; [reflexivity |].
  rewrite append_String. simpl. rewrite IH. apply andb_assoc.
Qed.

Lemma hex_digit_is_hex v : 0 <= v < 16 -> is_hex_char (hex_digit v) = true.
Proof.
  intros Hv.
  assert (v = 0 \/ v = 1 \/ v = 2 \/ v = 3 \/ v = 4 \/ v = 5 \/ v = 6
          \/ v = 7 \/ v = 8 \/ v = 9 \/ v = 10 \/ v = 11 \/ v = 12
          \/ v = 13 \/ v = 14 \/ v = 15) as H by lia.
  repeat (destruct H as [-> | H]; [reflexivity |]). subst. reflexivity.
Qed.

Lemma hex_digits_are_hex n z : string_forallb is_hex_char (hex_digits n z) = true.
Proof.
  revert z. induction n as [| n IH]; intros z; [reflexivity |].
  cbn [hex_digits]. rewrite string_forallb_append, IH. simpl.
  rewrite hex_digit_is_hex; [reflexivity | apply Z.mod_pos_bound; lia].
Qed.

Lemma zeros_are_hex n : string_forallb is_hex_char (zeros n) = true.
Proof. induction n as [| n IH]; [reflexivity | simpl; exact IH]. Qed.

Lemma hex_of_bytes_is_hex bs : string_forallb is_hex_char (hex_of_bytes bs) = true.
Proof.
  induction bs as [| b bs IH]; [reflexivity |].
  cbn [hex_of_bytes string_forallb]. rewrite IH.
  destruct b; reflexivity.
Qed.

Lemma encode_uint256_is_hex z :
  string_forallb is_hex_char (encode_uint256 z) = true.
Proof.
  unfold encode_uint256, pad_hex, zfill, py_hex.
  now rewrite string_forallb_append, zeros_are_hex, hex_digits_are_hex.
Qed.

Lemma encode_string_is_hex s :
  string_forallb is_hex_char (encode_string s) = true.
Proof. apply hex_of_bytes_is_hex. Qed.

Lemma encode_address_is_hex s :
  is_checksum_address s = true ->
  string_forallb is_hex_char (encode_address s) = true.
Proof.
  unfold is_checksum_address, is_hex_address, encode_address, pad_hex, zfill.
  intros H. apply andb_true_iff in H as [H _].
  apply andb_true_iff in H as [_ H].
  now rewrite string_forallb_append, zeros_are_hex, H.
Qed.

Lemma bytes_of_hex_total n s :
  String.length s = (2 * n)%nat ->
  string_forallb is_hex_char s = true ->
  exists bs, bytes_of_hex s = Some bs.
Proof.
  revert s. induction n as [| n IH]; intros s Hlen Hall.
  - destruct s; [eexists; reflexivity | discriminate].
  - destruct s as [| c1 [| c2 s]]; try (simpl in Hlen; lia).
    simpl in Hall. apply andb_true_iff in Hall as [H1 Hall].
    apply andb_true_iff in Hall as [H2 Hall].
    destruct (IH s) as [bs Hbs]; [simpl in Hlen; lia | exact Hall |].
    cbn [bytes_of_hex]. rewrite Hbs. unfold is_hex_char in H1, H2.
    destruct (hex_value c1); [| discriminate].
    destruct (hex_value c2); [| discriminate].
    eexists. reflexivity.
Qed.

Lemma to_bytes_hexstr_total s :
  string_forallb is_hex_char s = true -> exists bs, to_bytes_hexstr s = Ok bs.
Proof.
  intros Hall. unfold to_bytes_hexstr.
  destruct (Nat.odd (String.length s)) eqn:Hodd.
  - apply Nat.odd_spec in Hodd as [m Hm].
    destruct (bytes_of_hex_total (S m) (String "0" s)) as [bs ->];
      [simpl; lia | simpl; exact Hall | eauto].
  - assert (Nat.even (String.length s) = true) as Heven
      by (rewrite <- Nat.negb_odd, Hodd; reflexivity).
    apply Nat.even_spec in Heven as [m Hm].
    destruct (bytes_of_hex_total m s) as [bs ->]; [lia | exact Hall | eauto].
Qed.

Lemma Blockchain_value_nonneg b : (0 <=? Blockchain_value b) = true.
Proof. destruct b; reflexivity. Qed.

Lemma solidity_keccak_transfer_to
    (source_blockchain destination_blockchain : Blockchain)
    (source_transaction_id : string) (source_transfer_id : Z)
    (sender_address recipient_address source_token_address
       destination_token_address : string)
    (amount validator_nonce : Z)
    (hub_address forwarder_address pan_token_address : string) :
  let encodable :=
    transfer_to_fields_encodable source_transfer_id recipient_address
      destination_token_address amount validator_nonce hub_address
      forwarder_address pan_token_address in
  let digits :=
    transfer_to_message_hex source_blockchain destination_blockchain
      source_transaction_id source_transfer_id sender_address
      recipient_address source_token_address destination_token_address
      amount validator_nonce hub_address forwarder_address
      pan_token_address in
  match solidity_keccak transfer_to_message_types
          [AInt (Blockchain_value source_blockchain);
           AInt (Blockchain_value destination_blockchain);
           AStr source_transaction_id; AInt source_transfer_id;
           AStr sender_address; AStr recipient_address;
           AStr source_token_address; AStr destination_token_address;
           AInt amount; AInt validator_nonce; AStr hub_address;
           AStr forwarder_address; AStr pan_token_address] with
  | Ok base_message =>
      encodable = true
      /\ string_forallb is_hex_char digits = true
      /\ exists preimage,
           to_bytes_hexstr digits = Ok preimage
           /\ base_message = Keccak.keccak256 preimage
  | Raise _ => encodable = false
  end.
Proof.
  intros encodable digits. subst encodable digits.
  unfold solidity_keccak, transfer_to_message_types,
    transfer_to_fields_encodable, transfer_to_message_hex.
  cbn [length Nat.eqb zip zip_with mapM hex_encode_abi_type].
  rewrite !Blockchain_value_nonneg. cbn [mbind result_bind mret result_ret].
  destruct (0 <=? source_transfer_id); [| reflexivity].
  cbn [mbind result_bind mret result_ret andb].
  destruct (is_checksum_address recipient_address) eqn:H1; [| reflexivity].
  cbn [mbind result_bind mret result_ret andb].
  destruct (is_checksum_address destination_token_address) eqn:H2;
    [| reflexivity].
  cbn [mbind result_bind mret result_ret andb].
  destruct (0 <=? amount); [| reflexivity].
  cbn [mbind result_bind mret result_ret andb].
  destruct (0 <=? validator_nonce); [| reflexivity].
  cbn [mbind result_bind mret result_ret andb].
  destruct (is_checksum_address hub_address) eqn:H3; [| reflexivity].
  cbn [mbind result_bind mret result_ret andb].
  destruct (is_checksum_address forwarder_address) eqn:H4; [| reflexivity].
  cbn [mbind result_bind mret result_ret andb].
  destruct (is_checksum_address pan_token_address) eqn:H5; [| reflexivity].
  cbn [mbind result_bind mret result_ret andb String.concat].
  match goal with
  | |- context [to_bytes_hexstr ?d] =>
      assert (string_forallb is_hex_char d = true) as Hhex
  end.
  { rewrite !string_forallb_append, !encode_uint256_is_hex,
      !encode_string_is_hex, !encode_address_is_hex by assumption.
    reflexivity. }
  destruct (to_bytes_hexstr_total _ Hhex) as [preimage Hpre].
  rewrite Hpre. cbn [mbind result_bind].
  repeat split; [exact Hhex |]. exists preimage. split; [exact Hpre | reflexivity].
Qed.

(** C1, as amended: the transferTo message is the signed-message
    envelope of the Keccak-256 hash of the thirteen fields in this order:
    source blockchain id, destination blockchain id, source transaction
    id, source transfer id, sender address, recipient address, source
    token address, destination token address, amount, validator nonce, Hub
    address, Forwarder address, PAN token address; the integers as
    uint256, the source transaction id, the sender address and the source
    token address as strings, and the recipient address and the
    destination token address as addresses, like the three contract
    addresses.  The message is built exactly for the fields the encoding
    accepts. *)
Theorem create_transfer_to_message_fields
    (source_blockchain destination_blockchain : Blockchain)
    (source_transaction_id : string) (source_transfer_id : Z)
    (sender_address recipient_address source_token_address
       destination_token_address : string)
    (amount validator_nonce : Z)
    (hub_address forwarder_address pan_token_address : string) :
  match create_transfer_to_message source_blockchain destination_blockchain
          source_transaction_id source_transfer_id sender_address
          recipient_address source_token_address destination_token_address
          amount validator_nonce hub_address forwarder_address
          pan_token_address with
  | Ok message =>
      transfer_to_fields_encodable source_transfer_id recipient_address
        destination_token_address amount validator_nonce hub_address
        forwarder_address pan_token_address = true
      /\ exists preimage,
           to_bytes_hexstr
             (transfer_to_message_hex source_blockchain
                destination_blockchain source_transaction_id
                source_transfer_id sender_address recipient_address
                source_token_address destination_token_address amount
                validator_nonce hub_address forwarder_address
                pan_token_address)
           = Ok preimage
           /\ message = encode_defunct (Keccak.keccak256 preimage)
  | Raise _ =>
      transfer_to_fields_encodable source_transfer_id recipient_address
        destination_token_address amount validator_nonce hub_address
        forwarder_address pan_token_address = false
  end.
Proof.
  unfold create_transfer_to_message.
  pose proof (solidity_keccak_transfer_to source_blockchain
                destination_blockchain source_transaction_id
                source_transfer_id sender_address recipient_address
                source_token_address destination_token_address amount
                validator_nonce hub_address forwarder_address
                pan_token_address) as H.
  cbv zeta in H.
  destruct (solidity_keccak _ _) as [base_message | e];
    cbn [mbind result_bind]; [| exact H].
  destruct H as (Henc & _ & preimage & Hpre & ->).
  split; [exact Henc |]. exists preimage. split; [exact Hpre | reflexivity].
Qed.

(** The bytes behind the hexadecimal text: 32 bytes for an integer, the 20
    bytes of an address, the characters of a string. *)
Example encode_uint256_bytes :
  to_bytes_hexstr (encode_uint256 1000) = Ok (be_bytes 32 1000).
Proof. vm_compute. reflexivity. Qed.

Example encode_address_bytes :
  (bs ← to_bytes_hexstr (encode_address address_1); Ok (length bs)) = Ok 20%nat.
Proof. vm_compute. reflexivity. Qed.

Example encode_string_bytes :
  to_bytes_hexstr (encode_string address_1) = Ok (bytes_of_string address_1).
Proof. vm_compute. reflexivity. Qed.

(** C1, counterexample: the client encodes the recipient address and
    the destination token address as addresses, and for the demonstration
    transfer its message differs from the message that encodes all four
    addresses of the transfer as strings. *)
Lemma create_transfer_to_message_not_all_strings :
  nth 5 transfer_to_message_types uint256 = abi_address
  /\ nth 7 transfer_to_message_types uint256 = abi_address
  /\ create_transfer_to_message BNB_CHAIN ETHEREUM
       (source_transaction_id demo_transfer) 17 address_2 address_1
       address_2 address_1 1000 5 address_1 address_2 address_1
     <> spec_create_transfer_to_message BNB_CHAIN ETHEREUM
          (source_transaction_id demo_transfer) 17 address_2 address_1
          address_2 address_1 1000 5 address_1 address_2 address_1.
Proof.
  split; [reflexivity |]. split; [reflexivity |].
  vm_compute. discriminate.
Qed.

(** * Further properties *)

(** ** The shape of the transferTo message *)

Lemma length_le_bytes n z : length (le_bytes n z) = n.
Proof.
  revert z. induction n as [| n IH]; intros z; [reflexivity |].
  simpl. now rewrite IH.
Qed.

Lemma length_round st rc : length (Keccak.round st rc) = 25%nat.
Proof.
  unfold Keccak.round, Keccak.chi.
  generalize (Keccak.rho_pi (Keccak.theta st)). intros st'.
  unfold Keccak.iota.
  match goal with
  | |- length match ?l with _ => _ end = _ =>
      assert (length l = 25%nat) as Hl by (now rewrite length_map);
      destruct l as [| x l']; [discriminate Hl | exact Hl]
  end.
Qed.

Lemma length_fold_round rcs rc st :
  length (Keccak.round st rc) = 25%nat ->
  length (fold_left Keccak.round (rc :: rcs) st) = 25%nat.
Proof.
  revert rc st. induction rcs as [| rc' rcs IH]; intros rc st Hst;
    [exact Hst |].
  change (length (fold_left Keccak.round (rc' :: rcs) (Keccak.round st rc))
          = 25%nat).
  apply IH, length_round.
Qed.

Lemma length_absorb fuel st msg :
  length st = 25%nat -> length (Keccak.absorb fuel st msg) = 25%nat.
Proof.
  revert st msg. induction fuel as [| fuel IH]; intros st msg Hst;
    [exact Hst |].
  destruct msg as [| b msg]; [exact Hst |].
  cbn [Keccak.absorb]. apply IH. unfold Keccak.permute.
  apply length_fold_round, length_round.
Qed.

Lemma length_keccak256 msg : length (Keccak.keccak256 msg) = 32%nat.
Proof.
  unfold Keccak.keccak256.
  pose proof (length_absorb (length (Keccak.pad msg)) (repeat 0 25)
                (Keccak.pad msg) eq_refl) as H.
  destruct (Keccak.absorb _ _ _) as [| a [| b [| c [| d st]]]];
    try discriminate H.
  cbn [firstn flat_map]. rewrite !length_app, !length_le_bytes. reflexivity.
Qed.

(** X1: every transferTo message the client builds is the envelope of
    a 32-byte hash: version E, header "thereum Signed Message:" followed
    by a newline and 32, and a body of 32 bytes. *)
Theorem create_transfer_to_message_envelope
    (source_blockchain destination_blockchain : Blockchain)
    (source_transaction_id : string) (source_transfer_id : Z)
    (sender_address recipient_address source_token_address
       destination_token_address : string)
    (amount validator_nonce : Z)
    (hub_address forwarder_address pan_token_address : string)
    (message : SignableMessage) :
  create_transfer_to_message source_blockchain destination_blockchain
    source_transaction_id source_transfer_id sender_address
    recipient_address source_token_address destination_token_address
    amount validator_nonce hub_address forwarder_address pan_token_address
  = Ok message ->
  version message = bytes_of_string "E"
  /\ header message
     = bytes_of_string "thereum Signed Message:" ++ [Byte.x0a]
       ++ bytes_of_string "32"
  /\ length (body message) = 32%nat.
Proof.
  unfold create_transfer_to_message. intros H.
  apply bind_Ok in H as (base_message & Hbase & [= <-]).
  unfold solidity_keccak in Hbase.
  destruct (_ =? _)%nat; [| discriminate].
  apply bind_Ok in Hbase as (hexes & _ & Hbase).
  apply bind_Ok in Hbase as (preimage & _ & [= <-]).
  unfold encode_defunct. cbn [version header body].
  rewrite length_keccak256. repeat split.
Qed.

Lemma create_transfer_to_message_envelope_witness :
  exists message,
    create_transfer_to_message BNB_CHAIN ETHEREUM
      (source_transaction_id demo_transfer) 17 address_2 address_1
      address_2 address_1 1000 5 address_1 address_2 address_1
    = Ok message
    /\ length (body message) = 32%nat.
Proof.
  destruct (create_transfer_to_message BNB_CHAIN ETHEREUM
              (source_transaction_id demo_transfer) 17 address_2 address_1
              address_2 address_1 1000 5 address_1 address_2 address_1)
    as [message | e] eqn:H.
  - exists message. split; [reflexivity |].
    exact (proj2 (proj2 (create_transfer_to_message_envelope _ _ _ _ _ _ _ _
                           _ _ _ _ _ message H))).
  - exfalso. vm_compute in H. discriminate H.
Defined.

(** ** Errors of the signer recovery *)

Lemma create_transfer_to_message_cases
    (source_blockchain destination_blockchain : Blockchain)
    (source_transaction_id : string) (source_transfer_id : Z)
    (sender_address recipient_address source_token_address
       destination_token_address : string)
    (amount validator_nonce : Z)
    (hub_address forwarder_address pan_token_address : string) :
  match create_transfer_to_message source_blockchain destination_blockchain
          source_transaction_id source_transfer_id sender_address
          recipient_address source_token_address destination_token_address
          amount validator_nonce hub_address forwarder_address
          pan_token_address with
  | Ok _ =>
      transfer_to_fields_encodable source_transfer_id recipient_address
        destination_token_address amount validator_nonce hub_address
        forwarder_address pan_token_address = true
  | Raise e =>
      transfer_to_fields_encodable source_transfer_id recipient_address
        destination_token_address amount validator_nonce hub_address
        forwarder_address pan_token_address = false
      /\ (e = TypeError \/ e = InvalidAddress)
  end.
Proof.
  unfold create_transfer_to_message, solidity_keccak,
    transfer_to_message_types, transfer_to_fields_encodable.
  cbn [length Nat.eqb zip zip_with mapM hex_encode_abi_type].
  rewrite !Blockchain_value_nonneg. cbn [mbind result_bind mret result_ret].
  destruct (0 <=? source_transfer_id); [| simpl; auto].
  cbn [mbind result_bind mret result_ret andb].
  destruct (is_checksum_address recipient_address) eqn:H1; [| simpl; auto].
  cbn [mbind result_bind mret result_ret andb].
  destruct (is_checksum_address destination_token_address) eqn:H2;
    [| simpl; auto].
  cbn [mbind result_bind mret result_ret andb].
  destruct (0 <=? amount); [| simpl; auto].
  cbn [mbind result_bind mret result_ret andb].
  destruct (0 <=? validator_nonce); [| simpl; auto].
  cbn [mbind result_bind mret result_ret andb].
  destruct (is_checksum_address hub_address) eqn:H3; [| simpl; auto].
  cbn [mbind result_bind mret result_ret andb].
  destruct (is_checksum_address forwarder_address) eqn:H4; [| simpl; auto].
  cbn [mbind result_bind mret result_ret andb].
  destruct (is_checksum_address pan_token_address) eqn:H5; [| simpl; auto].
  cbn [mbind result_bind mret result_ret andb String.concat].
  match goal with
  | |- context [to_bytes_hexstr ?d] =>
      assert (string_forallb is_hex_char d = true) as Hhex
  end.
  { rewrite !string_forallb_append, !encode_uint256_is_hex,
      !encode_string_is_hex, !encode_address_is_hex by assumption.
    reflexivity. }
  destruct (to_bytes_hexstr_total _ Hhex) as [preimage ->].
  reflexivity.
Qed.

(** X2: the recovery of the signer's address does not wrap the errors
    of the message encoding: with a negative integer or an address that is
    no checksum address among the fields, the [TypeError] or
    [InvalidAddress] of the encoding reaches the caller as it is; with
    fields the encoding accepts, every failure of the recovery itself is
    the client error carrying the request. *)
Theorem recover_transfer_to_signer_address_errors
    (crypto : Account) (self : EthereumClient)
    (request : TransferToSignerAddressRecoveryRequest) :
  let encodable :=
    transfer_to_fields_encodable (rr_source_transfer_id request)
      (rr_recipient_address request) (rr_destination_token_address request)
      (rr_amount request) (rr_validator_nonce request) (hub (config self))
      (forwarder (config self)) (pan_token (config self)) in
  match recover_transfer_to_signer_address crypto self request with
  | Ok _ => encodable = true
  | Raise e =>
      if encodable
      then e = _create_error "unable to recover the signer's address"
                 [("request", DRecoveryRequest request)]
      else e = TypeError \/ e = InvalidAddress
  end.
Proof.
  intros encodable. subst encodable.
  unfold recover_transfer_to_signer_address.
  pose proof (create_transfer_to_message_cases (rr_source_blockchain request)
                get_blockchain (rr_source_transaction_id request)
                (rr_source_transfer_id request) (rr_sender_address request)
                (rr_recipient_address request)
                (rr_source_token_address request)
                (rr_destination_token_address request) (rr_amount request)
                (rr_validator_nonce request) (hub (config self))
                (forwarder (config self)) (pan_token (config self))) as H.
  destruct (create_transfer_to_message _ _ _ _ _ _ _ _ _ _ _ _ _)
    as [message | e]; cbn [mbind result_bind].
  - rewrite H.
    destruct (recover_message crypto message (rr_signature request));
      reflexivity.
  - destruct H as [-> H]. exact H.
Qed.

(** ** The check of a recipient address *)

Lemma length_hex_of_bytes bs :
  String.length (hex_of_bytes bs) = (2 * length bs)%nat.
Proof. induction bs as [| b bs IH]; [reflexivity | simpl; lia]. Qed.

Lemma length_string_map f s :
  String.length (string_map f s) = String.length s.
Proof. induction s as [| c s IH]; [reflexivity | simpl; now rewrite IH]. Qed.

Lemma length_checksum_chars a h :
  (String.length a <= String.length h)%nat ->
  String.length (checksum_chars a h) = String.length a.
Proof.
  revert h. induction a as [| c a IH]; intros h Hle; [reflexivity |].
  destruct h as [| d h]; [simpl in Hle; lia |].
  simpl. rewrite IH; [reflexivity | simpl in Hle; lia].
Qed.

Lemma lower_char_is_hex c : is_hex_char (lower_char c) = is_hex_char c.
Proof. destruct c as [[] [] [] [] [] [] [] []]; reflexivity. Qed.

Lemma upper_lower_char_is_hex c :
  is_hex_char (upper_char (lower_char c)) = is_hex_char c.
Proof. destruct c as [[] [] [] [] [] [] [] []]; reflexivity. Qed.

Lemma lower_char_zero c : Ascii.eqb "0" (lower_char c) = Ascii.eqb "0" c.
Proof. destruct c as [[] [] [] [] [] [] [] []]; reflexivity. Qed.

Lemma upper_lower_char_zero c :
  Ascii.eqb "0" (upper_char (lower_char c)) = Ascii.eqb "0" c.
Proof. destruct c as [[] [] [] [] [] [] [] []]; reflexivity. Qed.

Lemma lower_upper_lower_char c :
  lower_char (upper_char (lower_char c)) = lower_char c.
Proof. destruct c as [[] [] [] [] [] [] [] []]; reflexivity. Qed.

Lemma lower_lower_char c : lower_char (lower_char c) = lower_char c.
Proof. destruct c as [[] [] [] [] [] [] [] []]; reflexivity. Qed.

Lemma checksum_chars_facts p q a h :
  (forall c, p (lower_char c) = q c) ->
  (forall c, p (upper_char (lower_char c)) = q c) ->
  (String.length a <= String.length h)%nat ->
  string_forallb p (checksum_chars (string_map lower_char a) h)
  = string_forallb q a.
Proof.
  intros Hl Hu. revert h.
  induction a as [| c a IH]; intros h Hle; [reflexivity |].
  destruct h as [| d h]; [simpl in Hle; lia |].
  cbn [string_map checksum_chars string_forallb].
  rewrite IH by (simpl in Hle; lia).
  destruct (match hex_value d with Some v => 7 <? v | None => false end);
    now rewrite ?Hl, ?Hu.
Qed.

Lemma lower_checksum_chars a h :
  (String.length a <= String.length h)%nat ->
  string_map lower_char (checksum_chars (string_map lower_char a) h)
  = string_map lower_char a.
Proof.
  revert h. induction a as [| c a IH]; intros h Hle; [reflexivity |].
  destruct h as [| d h]; [simpl in Hle; lia |].
  cbn [string_map checksum_chars].
  rewrite IH by (simpl in Hle; lia).
  destruct (match hex_value d with Some v => 7 <? v | None => false end);
    now rewrite ?lower_upper_lower_char, ?lower_lower_char.
Qed.

(** The checksum form of a hexadecimal address: 0x and forty hexadecimal
    digits, zero exactly where the address has a zero. *)
Lemma to_checksum_address_digits value :
  is_hex_address value = true ->
  exists digits,
    to_checksum_address value = String "0" (String "x" digits)
    /\ String.length digits = 40%nat
    /\ string_forallb is_hex_char digits = true
    /\ zero_digits digits = zero_digits (remove_0x_prefix value)
    /\ string_map lower_char digits
       = string_map lower_char (remove_0x_prefix value).
Proof.
  unfold is_hex_address. intros H.
  apply andb_true_iff in H as [Hlen Hhex].
  apply Nat.eqb_eq in Hlen.
  unfold to_checksum_address.
  set (norm := string_map lower_char (remove_0x_prefix value)).
  set (hash := hex_of_bytes (Keccak.keccak256 (bytes_of_string norm))).
  assert (String.length (remove_0x_prefix value) <= String.length hash)%nat
    as Hle.
  { unfold hash. rewrite length_hex_of_bytes, length_keccak256. lia. }
  exists (checksum_chars norm hash). split; [reflexivity |].
  split.
  { rewrite length_checksum_chars; unfold norm;
      rewrite length_string_map; [exact Hlen | exact Hle]. }
  split.
  { unfold norm.
    rewrite (checksum_chars_facts is_hex_char is_hex_char);
      auto using lower_char_is_hex, upper_lower_char_is_hex. }
  split.
  { unfold norm, zero_digits.
    apply checksum_chars_facts;
      auto using lower_char_zero, upper_lower_char_zero. }
  unfold norm. apply lower_checksum_chars, Hle.
Qed.

Lemma hex_value_zero c v :
  hex_value c = Some v -> 0 <= v /\ (v =? 0) = Ascii.eqb "0" c.
Proof.
  destruct c as [[] [] [] [] [] [] [] []]; vm_compute;
    intros [= <-]; split; (reflexivity || discriminate).
Qed.

Lemma hex_number_zero digits acc :
  0 <= acc ->
  string_forallb is_hex_char digits = true ->
  exists v,
    hex_number acc digits = Some v /\ 0 <= v
    /\ (v =? 0) = (acc =? 0) && zero_digits digits.
Proof.
  revert acc. induction digits as [| c digits IH]; intros acc Hacc Hall.
  - exists acc. simpl. rewrite andb_true_r. auto.
  - simpl in Hall. apply andb_true_iff in Hall as [Hc Hall].
    unfold is_hex_char in Hc. cbn [hex_number].
    destruct (hex_value c) as [d |] eqn:Hd; [| discriminate].
    apply hex_value_zero in Hd as [Hd0 Hdz].
    destruct (IH (16 * acc + d) ltac:(lia) Hall) as (v & -> & Hv & Hz).
    exists v. repeat split; auto. rewrite Hz.
    unfold zero_digits. cbn [string_forallb]. rewrite <- Hdz.
    rewrite andb_assoc. f_equal.
    destruct (Z.eqb_spec (16 * acc + d) 0), (Z.eqb_spec acc 0),
      (Z.eqb_spec d 0); simpl; (reflexivity || lia).
Qed.

(** X3: a recipient address is valid exactly when it is forty
    hexadecimal digits of any case, with or without the 0x prefix, that
    are not all zero; the check never raises, and it does not ask for the
    checksum form. *)
Theorem is_valid_recipient_address_hex_not_zero (recipient_address : string) :
  is_valid_recipient_address recipient_address
  = Ok (is_hex_address recipient_address
        && negb (zero_digits (remove_0x_prefix recipient_address))).
Proof.
  unfold is_valid_recipient_address, Web3_to_checksum_address.
  destruct (is_hex_address recipient_address) eqn:Hhex; [| reflexivity].
  destruct (to_checksum_address_digits _ Hhex)
    as (digits & -> & Hlen & Hall & Hzero & _).
  destruct digits as [| c digits]; [discriminate Hlen |].
  cbn [py_int_literal].
  destruct (hex_number_zero (String c digits) 0 ltac:(lia) Hall)
    as (v & -> & _ & Hv).
  cbn [mbind result_bind andb]. rewrite Hv, Hzero. reflexivity.
Qed.

(** X4: the checksum form computed for a valid recipient address is a
    checksum address, the form the message encoding asks of the recipient;
    putting it in checksum form again changes nothing. *)
Theorem valid_recipient_address_checksum_form (recipient_address : string) :
  is_valid_recipient_address recipient_address = Ok true ->
  is_checksum_address (to_checksum_address recipient_address) = true
  /\ to_checksum_address (to_checksum_address recipient_address)
     = to_checksum_address recipient_address.
Proof.
  rewrite is_valid_recipient_address_hex_not_zero. intros [= H].
  apply andb_true_iff in H as [Hhex _].
  destruct (to_checksum_address_digits _ Hhex)
    as (digits & Hform & Hlen & Hall & _ & Hlower).
  assert (to_checksum_address (to_checksum_address recipient_address)
          = to_checksum_address recipient_address) as Hidem.
  { rewrite Hform at 1. unfold to_checksum_address at 1.
    cbn [remove_0x_prefix]. rewrite Hlower. reflexivity. }
  split; [| exact Hidem].
  unfold is_checksum_address. rewrite Hidem, String.eqb_refl, andb_true_r.
  rewrite Hform. unfold is_hex_address. cbn [remove_0x_prefix].
  rewrite Hlen, Hall. reflexivity.
Qed.

Lemma valid_recipient_address_checksum_form_witness :
  is_checksum_address
    (to_checksum_address "5AAEB6053F3E94C9B9A09F33669435E7EF1BEAED") = true
  /\ to_checksum_address
       (to_checksum_address "5AAEB6053F3E94C9B9A09F33669435E7EF1BEAED")
     = to_checksum_address "5AAEB6053F3E94C9B9A09F33669435E7EF1BEAED".
Proof.
  refine (valid_recipient_address_checksum_form
            "5AAEB6053F3E94C9B9A09F33669435E7EF1BEAED" _).
  vm_compute. reflexivity.
Defined.

Example is_valid_recipient_address_zero :
  is_valid_recipient_address "0x0000000000000000000000000000000000000000"
  = Ok false.
Proof. vm_compute. reflexivity. Qed.

Example is_valid_recipient_address_lower_case :
  is_valid_recipient_address "0x5aaeb6053f3e94c9b9a09f33669435e7ef1beaed"
  = Ok true
  /\ is_checksum_address "0x5aaeb6053f3e94c9b9a09f33669435e7ef1beaed" = false.
Proof. vm_compute. split; reflexivity. Qed.

(** ** The transfers of TransferFrom events *)

Lemma mapM_Ok_Forall2 {A B} (f : A -> result B) (R : A -> B -> Prop) l k :
  (forall x y, f x = Ok y -> R x y) -> mapM f l = Ok k -> Forall2 R l k.
Proof.
  intros Hf. revert k. induction l as [| x l IH]; intros k.
  - intros [= <-]. constructor.
  - rewrite mapM_cons. intros H.
    apply bind_Ok in H as (y & Hy & H).
    apply bind_Ok in H as (k' & Hk' & [= <-]).
    constructor; eauto.
Qed.

Lemma getitem_Ok d key v : getitem d key = Ok v -> d !! key = Some v.
Proof. unfold getitem. destruct (d !! key); [intros [= <-] |]; easy. Qed.

Lemma isinstance_str_Ok v u :
  assert (isinstance_str v) = Ok u -> v = PyStr (str_of v).
Proof. destruct v; simpl; (reflexivity || discriminate). Qed.

Lemma Blockchain_init_Ok v b :
  Blockchain_init v = Ok b -> int_of v = Blockchain_value b.
Proof.
  unfold Blockchain_init, Blockchain_of_value.
  destruct (find _ _) as [b' |] eqn:Hfind; [| discriminate].
  intros [= <-]. apply find_some in Hfind as [_ H].
  apply Z.eqb_eq in H. auto.
Qed.

Lemma create_outgoing_transfer_of_event hub_contract_address event_log t :
  create_outgoing_transfer hub_contract_address event_log = Ok t ->
  transfer_of_event hub_contract_address event_log t.
Proof.
  unfold create_outgoing_transfer. intros H.
  bind_inversion H. injection H as <-.
  repeat match goal with
         | Hg : getitem _ _ = Ok _ |- _ => apply getitem_Ok in Hg
         | Hs : assert (isinstance_str ?v) = Ok _ |- _ =>
             apply isinstance_str_Ok in Hs
         | Hi : assert (isinstance_int ?v) = Ok _ |- _ =>
             apply assert_Ok in Hi
         | Hb : Blockchain_init _ = Ok _ |- _ => apply Blockchain_init_Ok in Hb
         | He : assert (String.eqb _ _) = Ok _ |- _ =>
             apply assert_Ok, String.eqb_eq in He
         end.
  unfold transfer_of_event, int_argument, str_argument. cbn.
  repeat split; eauto; congruence.
Qed.

(** X5: the transfers read from events come one per event and in the
    order of the events, each with the arguments of its event, the
    transaction hash, block number and block hash of the event's envelope,
    the given Hub address, the client's blockchain as source, and no
    reversal. *)
Theorem create_outgoing_transfers_of_events
    (event_logs : list EventData) (hub_contract_address : string)
    (transfers : list CrossChainTransfer) :
  __create_outgoing_transfers event_logs hub_contract_address = Ok transfers ->
  Forall2 (transfer_of_event hub_contract_address) event_logs transfers.
Proof.
  apply mapM_Ok_Forall2. apply create_outgoing_transfer_of_event.
Qed.

Lemma create_outgoing_transfers_of_events_witness :
  exists transfers,
    __create_outgoing_transfers [demo_event 5 1; demo_event 6 3] address_1
    = Ok transfers
    /\ Forall2 (transfer_of_event address_1) [demo_event 5 1; demo_event 6 3]
         transfers.
Proof.
  destruct (__create_outgoing_transfers [demo_event 5 1; demo_event 6 3]
              address_1) as [transfers | e] eqn:H.
  - exists transfers. split; [reflexivity |].
    exact (create_outgoing_transfers_of_events _ _ _ H).
  - exfalso. vm_compute in H. discriminate H.
Defined.

(** X6: the mapping is all or nothing: one event that is not a
    TransferFrom event, or lacks one of the nine arguments, or names a
    destination blockchain that does not exist, makes the whole call
    raise. *)
Theorem create_outgoing_transfers_malformed_event
    (event_logs : list EventData) (hub_contract_address : string)
    (event_log : EventData) :
  event_log ∈ event_logs ->
  ev_event event_log <> "TransferFrom"%string
  \/ (exists key,
        key ∈ transfer_from_arguments /\ ev_args event_log !! key = None)
  \/ (exists id,
        ev_args event_log !! "destinationBlockchainId" = Some id
        /\ Blockchain_of_value (int_of id) = None) ->
  exists e,
    __create_outgoing_transfers event_logs hub_contract_address = Raise e.
Proof.
  intros Hin Hbad. apply mapM_Raise_elem with (x := event_log); [exact Hin |].
  destruct (create_outgoing_transfer hub_contract_address event_log)
    as [t | e] eqn:Ht; [exfalso | eauto].
  apply create_outgoing_transfer_of_event in Ht.
  unfold transfer_of_event, int_argument, str_argument in Ht.
  destruct Ht as (Hev & _ & (d & Hd & _ & Hdv) & _ & (i & Hi & _) & _ & _ & _
                  & _ & Hs & Hr & Hst & Hdt & (a & Ha & _) & (f & Hf & _)
                  & Hsn & _).
  destruct Hbad as [Hbad | [(key & Hkey & Hnone) | (id & Hid & Hnone)]].
  - contradiction.
  - unfold transfer_from_arguments in Hkey.
    repeat (apply elem_of_cons in Hkey as [-> | Hkey]; [congruence |]).
    inversion Hkey.
  - rewrite Hd in Hid. injection Hid as <-.
    rewrite Hdv, Blockchain_of_value_value in Hnone. discriminate.
Qed.

Lemma create_outgoing_transfers_malformed_event_witness :
  exists e,
    __create_outgoing_transfers [demo_event 5 1; demo_event 6 9] address_1
    = Raise e.
Proof.
  refine (create_outgoing_transfers_malformed_event
            [demo_event 5 1; demo_event 6 9] address_1 (demo_event 6 9) _ _).
  - apply elem_of_cons. right. apply elem_of_cons. left. reflexivity.
  - right. right. exists (PyInt 9). split; vm_compute; reflexivity.
Defined.

(** ** Reading the transfers of a transaction *)

Lemma lower_hex_of_bytes bs :
  string_map lower_char (hex_of_bytes bs) = hex_of_bytes bs.
Proof.
  induction bs as [| b bs IH]; [reflexivity |].
  cbn [hex_of_bytes string_map]. rewrite IH. destruct b; reflexivity.
Qed.

(** X7: the transfers of a transaction are returned only if the
    transaction id is, character for character, the 0x-prefixed lower-case
    hexadecimal text of the hash in the receipt; then they are the
    transfers of the TransferFrom events of the receipt, with the given
    Hub address.  An id with an upper-case digit is never answered. *)
Theorem read_outgoing_transfers_in_transaction_Ok
    (self : EthereumClient) (transaction_id hub_address : string)
    (transfers : list CrossChainTransfer) :
  read_outgoing_transfers_in_transaction self transaction_id hub_address
  = Ok transfers ->
  string_map lower_char transaction_id = transaction_id
  /\ exists node_connections receipt event_logs,
       __create_node_connections self = Ok node_connections
       /\ get_transaction_receipt node_connections transaction_id = Ok receipt
       /\ transaction_id = HexBytes_hex (receipt_transactionHash receipt)
       /\ TransferFrom_process_receipt node_connections
            (_create_hub_contract self (Some hub_address)) receipt
          = Ok event_logs
       /\ Forall2 (transfer_of_event hub_address) event_logs transfers.
Proof.
  unfold read_outgoing_transfers_in_transaction. intros H.
  destruct (read_outgoing_transfers_in_transaction_body self transaction_id
              hub_address) as [ts | e] eqn:Hbody;
    [| destruct e; discriminate H].
  injection H as ->.
  unfold read_outgoing_transfers_in_transaction_body in Hbody.
  apply bind_Ok in Hbody as (nc & Hnc & Hbody).
  apply bind_Ok in Hbody as (receipt & Hreceipt & Hbody).
  apply bind_Ok in Hbody as (u & Hhash & Hbody).
  apply bind_Ok in Hbody as (logs & Hlogs & Hbody).
  apply assert_Ok, String.eqb_eq in Hhash.
  split.
  - rewrite <- Hhash. unfold HexBytes_hex. cbn [string_map].
    now rewrite lower_hex_of_bytes.
  - exists nc, receipt, logs. repeat split; auto.
    apply (create_outgoing_transfers_of_events _ _ _ Hbody).
Qed.

Lemma read_outgoing_transfers_in_transaction_Ok_witness :
  let receipt :=
    {| receipt_transactionHash := [Byte.xab; Byte.xcd];
       receipt_blockNumber := 6 |} in
  let self :=
    demo_client 10 (demo_nodes_receipt "0xabcd" receipt [demo_event 6 1])
      (Ok "tx") in
  exists transfers,
    read_outgoing_transfers_in_transaction self "0xabcd" address_2
    = Ok transfers
    /\ string_map lower_char "0xabcd" = "0xabcd"%string.
Proof.
  intros receipt self.
  destruct (read_outgoing_transfers_in_transaction self "0xabcd" address_2)
    as [transfers | e] eqn:H.
  - exists transfers. split; [reflexivity |].
    exact (proj1 (read_outgoing_transfers_in_transaction_Ok _ _ _ _ H)).
  - exfalso. vm_compute in H. discriminate H.
Defined.

(** The same transaction asked for with upper-case digits. *)
Example read_outgoing_transfers_in_transaction_upper_case :
  let receipt :=
    {| receipt_transactionHash := [Byte.xab; Byte.xcd];
       receipt_blockNumber := 6 |} in
  read_outgoing_transfers_in_transaction
    (demo_client 10 (demo_nodes_receipt "0xABCD" receipt [demo_event 6 1])
       (Ok "tx"))
    "0xABCD" address_2
  = Raise (_create_error "unable to read outgoing transfers in a transaction"
             [("transaction_id", DStr "0xABCD");
              ("hub_address", DStr address_2)]).
Proof. vm_compute. reflexivity. Qed.

(** ** The size of the block chunks *)

Lemma read_event_logs_spans n tos from acc :
  stepped n from tos ->
  exists chunks,
    read_event_logs (fun a b => Ok [(a, b)]) tos from acc
    = (fst (read_event_logs (fun a b => Ok [(a, b)]) tos from acc),
       Ok (acc ++ chunks))
    /\ Forall (fun '(a, b) => a <= b /\ b - a <= n) chunks
    /\ head chunks = (fun to => (from, to)) <$> head tos.
Proof.
  intros H. revert acc. induction H as [from | from to rest Hle Hn _ IH];
    intros acc.
  - exists []. simpl. rewrite app_nil_r.
    split; [reflexivity |]. split; [constructor | reflexivity].
  - cbn [read_event_logs]. destruct (Z.geb_spec to from); [| lia].
    destruct (IH (acc ++ [(from, to)])) as (cs & Hcs & Hall & _).
    exists ((from, to) :: cs). rewrite Hcs at 1. rewrite <- app_assoc.
    split; [reflexivity |]. split; [constructor; auto | reflexivity].
Qed.

Lemma stepped_range n latest len s from :
  0 < n -> from <= s -> s - from <= n ->
  (len = O -> from <= latest /\ latest - from <= n) ->
  (len <> O ->
   s + (Z.of_nat len - 1) * n < latest <= s + Z.of_nat len * n) ->
  stepped n from
    (map (fun i => s + Z.of_nat i * n) (seq 0 len) ++ [latest]).
Proof.
  intros Hn. revert s from.
  induction len as [| len IH]; intros s from Hs Hsn H0 Hlast.
  - simpl. destruct (H0 eq_refl). constructor; [auto | auto | constructor].
  - cbn [seq map app]. rewrite <- seq_shift, map_map.
    specialize (Hlast ltac:(discriminate)).
    constructor; [simpl; lia | simpl; lia |].
    replace (s + Z.of_nat 0 * n + 1) with (s + 1) by lia.
    erewrite map_ext; [apply (IH (s + n) (s + 1)) |].
    + lia.
    + lia.
    + intros ->. simpl in Hlast. lia.
    + intros Hlen. lia.
    + intros i. simpl. lia.
Qed.

Lemma to_block_numbers_stepped from n latest :
  from <= latest -> 0 < n ->
  exists tos,
    to_block_numbers_of from n latest = Ok tos /\ stepped n from tos
    /\ head tos = Some (Z.min (from + n) latest).
Proof.
  intros Hle Hn. unfold to_block_numbers_of, py_range.
  destruct (Z.eqb_spec n 0) as [| _]; [lia |].
  cbn [mbind result_bind]. eexists. split; [reflexivity |].
  destruct (Z.ltb_spec 0 n) as [_ |]; [| lia].
  destruct (Z.ltb_spec (from + n) latest) as [Hlt | Hge].
  - assert (0 <= (latest - (from + n) - 1) / n) as Hq
      by (apply Z.div_pos; lia).
    pose proof (Z.mul_div_le (latest - (from + n) - 1) n Hn) as Hm.
    pose proof (Z.mul_succ_div_gt (latest - (from + n) - 1) n Hn) as Hs.
    revert Hq Hm Hs. generalize ((latest - (from + n) - 1) / n).
    intros q Hq Hm Hs. split; [apply stepped_range; lia |].
    replace (Z.to_nat (q + 1)) with (S (Z.to_nat q)) by lia.
    cbn [seq map app head]. rewrite Z.min_l by lia. f_equal. lia.
  - simpl. split; [constructor; [lia | lia | constructor] |].
    rewrite Z.min_r by lia. reflexivity.
Qed.

(** X8: with a positive chunk size n, every block range the client
    asks the nodes for is non-empty and its last block is at most n above
    its first, so a range holds at most n + 1 blocks; the first range
    starts at the starting block and ends n blocks above it, or at the
    latest block where that comes first. *)
Theorem block_chunks_span
    (from_block_number number_blocks latest_block_number : Z) :
  from_block_number <= latest_block_number ->
  0 < number_blocks ->
  exists to_block_numbers chunks,
    to_block_numbers_of from_block_number number_blocks latest_block_number
    = Ok to_block_numbers
    /\ block_chunks to_block_numbers from_block_number = Ok chunks
    /\ Forall (fun '(a, b) => a <= b /\ b - a <= number_blocks) chunks
    /\ head chunks
       = Some (from_block_number,
               Z.min (from_block_number + number_blocks)
                 latest_block_number).
Proof.
  intros Hle Hn.
  destruct (to_block_numbers_stepped _ _ _ Hle Hn)
    as (tos & Htos & Hstep & Hhead).
  destruct (read_event_logs_spans _ _ _ [] Hstep)
    as (cs & Hcs & Hall & Hfirst).
  exists tos, cs. split; [exact Htos |].
  split; [unfold block_chunks; now rewrite Hcs |].
  split; [exact Hall |].
  rewrite Hfirst, Hhead. reflexivity.
Qed.

Lemma block_chunks_span_witness :
  exists to_block_numbers chunks,
    to_block_numbers_of 2 3 10 = Ok to_block_numbers
    /\ block_chunks to_block_numbers 2 = Ok chunks
    /\ Forall (fun '(a, b) => a <= b /\ b - a <= 3) chunks
    /\ head chunks = Some (2, Z.min (2 + 3) 10).
Proof. apply (block_chunks_span 2 3 10); lia. Defined.

(** A first range of one block more than the chunk size, and a first
    range cut short by the latest block. *)
Example block_chunks_first_range :
  block_chunks [5; 8; 10] 2 = Ok [(2, 5); (6, 8); (9, 10)]
  /\ to_block_numbers_of 2 3 3 = Ok [3]
  /\ block_chunks [3] 2 = Ok [(2, 3)].
Proof. repeat split; reflexivity. Qed.

(** ** The block number in the error of a read from a starting block *)

Lemma mapM_Raise_inv {A B} (f : A -> result B) l e :
  mapM f l = Raise e -> exists x, x ∈ l /\ f x = Raise e.
Proof.
  induction l as [| x l IH]; [discriminate |].
  rewrite mapM_cons. destruct (f x) as [y |] eqn:Hx; cbn [mbind result_bind].
  - destruct (mapM f l) as [k |]; cbn [mbind result_bind]; [discriminate |].
    intros [= <-]. destruct (IH eq_refl) as (x' & Hin & Hx').
    exists x'. split; [apply elem_of_cons; right; exact Hin | exact Hx'].
  - intros [= <-]. exists x. split; [apply elem_of_cons; left |]; auto.
Qed.

Lemma bind_Raise {A B} (r : result A) (f : A -> result B) (e : exn) :
  r ≫= f = Raise e -> r = Raise e \/ exists a, r = Ok a /\ f a = Raise e.
Proof. destruct r as [a | e']; simpl; [eauto | intros [= <-]; auto]. Qed.

Lemma assert_Raise b e : assert b = Raise e -> mapping_error e.
Proof. destruct b; [discriminate | intros [= <-]; left; reflexivity]. Qed.

Lemma getitem_Raise d key e : getitem d key = Raise e -> mapping_error e.
Proof.
  unfold getitem. destruct (d !! key); [discriminate |].
  intros [= <-]. right. right. eauto.
Qed.

Lemma Blockchain_init_Raise v e : Blockchain_init v = Raise e -> mapping_error e.
Proof.
  unfold Blockchain_init. destruct (Blockchain_of_value _); [discriminate |].
  intros [= <-]. right. left. reflexivity.
Qed.

Lemma create_outgoing_transfer_Raise hub_contract_address event_log e :
  create_outgoing_transfer hub_contract_address event_log = Raise e ->
  mapping_error e.
Proof.
  unfold create_outgoing_transfer. intros H.
  repeat (apply bind_Raise in H as [H | (? & _ & H)];
          [ first [ exact (assert_Raise _ _ H)
                  | exact (getitem_Raise _ _ _ H)
                  | exact (Blockchain_init_Raise _ _ H) ] |]).
  discriminate H.
Qed.

Lemma create_outgoing_transfers_Raise event_logs hub_contract_address e :
  __create_outgoing_transfers event_logs hub_contract_address = Raise e ->
  mapping_error e.
Proof.
  intros H. apply mapM_Raise_inv in H as (x & _ & H).
  exact (create_outgoing_transfer_Raise _ _ _ H).
Qed.

(** X9: when all logs from the starting block to the latest block are
    read and the mapping of the events then fails, the client error of
    read_outgoing_transfers_from_block names as from_block_number the block
    after the latest block, not the starting block it was called with: the
    loop over the chunks has moved the variable on. *)
Theorem read_outgoing_transfers_from_block_error_block
    (self : EthereumClient) (node_connections : NodeConnections)
    (chain : Z -> list EventData) (from_block_number latest_block_number : Z)
    (e : exn) :
  __create_node_connections self = Ok node_connections ->
  get_minimum_result (get_block_number node_connections)
  = Ok latest_block_number ->
  (forall a b,
     TransferFrom_get_logs node_connections (_create_hub_contract self None)
       a b
     = Ok (logs_between chain a b)) ->
  from_block_number <= latest_block_number ->
  outgoing_transfers_number_blocks (config self) <> 0 ->
  __create_outgoing_transfers
    (logs_between chain from_block_number latest_block_number)
    (hub (config self))
  = Raise e ->
  read_outgoing_transfers_from_block self from_block_number
  = Raise (_create_error
             "unable to read outgoing transfers from a starting block"
             [("from_block_number", DInt (latest_block_number + 1))]).
Proof.
  intros Hnc Hmin Hlogs Hle Hn Hmap.
  destruct (to_block_numbers_ascending from_block_number
              (outgoing_transfers_number_blocks (config self))
              latest_block_number Hle Hn) as (r & Htos & Hasc).
  pose proof (read_event_logs_ascending chain r latest_block_number
                from_block_number [] Hasc) as Hread.
  rewrite <- (read_event_logs_ext
                (TransferFrom_get_logs node_connections
                   (_create_hub_contract self None))) in Hread
    by exact Hlogs.
  unfold read_outgoing_transfers_from_block,
    read_outgoing_transfers_from_block_body.
  rewrite Hnc, Hmin.
  destruct (Z.gtb_spec from_block_number latest_block_number); [lia |].
  rewrite Htos, Hread. cbn [app mbind result_bind].
  change (contract_address (_create_hub_contract self None))
    with (hub (config self)).
  rewrite Hmap. cbn [mbind result_bind try_except].
  destruct (create_outgoing_transfers_Raise _ _ _ Hmap)
    as [-> | [-> | [key ->]]]; reflexivity.
Qed.

Lemma read_outgoing_transfers_from_block_error_block_witness :
  read_outgoing_transfers_from_block
    (demo_client 3
       (demo_nodes [Ok 10] (Ok []) (Ok tt) (fun block => [demo_event block 0]))
       (Ok "tx"))
    2
  = Raise (_create_error
             "unable to read outgoing transfers from a starting block"
             [("from_block_number", DInt (10 + 1))]).
Proof.
  refine (read_outgoing_transfers_from_block_error_block
            (demo_client 3
               (demo_nodes [Ok 10] (Ok []) (Ok tt)
                  (fun block => [demo_event block 0]))
               (Ok "tx"))
            (demo_nodes [Ok 10] (Ok []) (Ok tt)
               (fun block => [demo_event block 0]))
            (fun block => [demo_event block 0]) 2 10 AssertionError
            _ _ _ _ _ _).
  - reflexivity.
  - reflexivity.
  - intros a b. reflexivity.
  - lia.
  - simpl. lia.
  - vm_compute. reflexivity.
Defined.

(** ** The nonce store across a submission *)

Lemma get_nonce_store self db nc id :
  fst (__get_nonce self db nc id) = db
  \/ exists count,
       db !! id = None
       /\ __get_nonce self db nc id = (<[id := count]> db, Ok count).
Proof.
  unfold __get_nonce.
  destruct (get_maximum_result _) as [count |]; [| left; reflexivity].
  unfold update_transfer_nonce, read_transfer_nonce.
  destruct (db !! id) as [n |] eqn:Hn.
  - rewrite Hn. left. reflexivity.
  - rewrite lookup_insert_eq. right. eauto.
Qed.

Lemma submit_transfer_to_request_frame self db nc id request signature id' :
  id' <> id ->
  fst (__submit_transfer_to_request self db nc id request signature) !! id'
  = db !! id'.
Proof.
  intros Hne. unfold __submit_transfer_to_request.
  assert (fst (__get_nonce self db nc id) !! id' = db !! id') as Hframe.
  { destruct (get_nonce_store self db nc id) as [-> | (count & _ & ->)];
      [reflexivity |].
    cbn [fst]. apply lookup_insert_ne. congruence. }
  destruct (__get_nonce self db nc id) as [db1 [nonce | e]]; cbn [fst] in *;
    [| exact Hframe].
  destruct (start_transaction_submission _ _ _) as [tx | e];
    [exact Hframe |].
  destruct e; cbn [fst]; try exact Hframe;
    unfold reset_transfer_nonce; rewrite lookup_delete_ne by congruence;
    exact Hframe.
Qed.

(** X10: a submission touches no nonce but its own: whatever the
    outcome of start_transfer_to_submission, the nonce stored for every
    other internal transfer id is the one stored before. *)
Theorem start_transfer_to_submission_frame
    (crypto : Account) (self : EthereumClient) (db : gmap Z Z)
    (request : TransferToSubmissionStartRequest) (other : Z) :
  other <> internal_transfer_id request ->
  fst (start_transfer_to_submission crypto self db request) !! other
  = db !! other.
Proof.
  intros Hne. unfold start_transfer_to_submission.
  destruct (negb _); [reflexivity |].
  unfold start_transfer_to_submission_body.
  destruct (prepare_transfer_to_submission crypto self request)
    as [[[nc ocr] signature] | e]; [| reflexivity].
  pose proof (submit_transfer_to_request_frame self db nc
                (internal_transfer_id request) ocr signature other Hne) as H.
  destruct (__submit_transfer_to_request _ _ _ _ _ _) as [db' submission].
  exact H.
Qed.

Lemma start_transfer_to_submission_frame_witness :
  fst (start_transfer_to_submission toy_account
         (demo_client 10 (demo_nodes [Ok 10] (Ok []) (Ok tt) demo_chain)
            (Raise TransactionNonceTooLowError))
         {[ 1 := 4; 2 := 6 ]} demo_request) !! 2
  = ({[ 1 := 4; 2 := 6 ]} : gmap Z Z) !! 2.
Proof.
  refine (start_transfer_to_submission_frame toy_account _ _ demo_request 2 _).
  simpl. lia.
Defined.

(** X11: a submission that fails before the transaction is handed to
    the utilities (no node connection, a message that cannot be signed, a
    rejected or failed verification) leaves the nonce store as it is: no
    nonce is taken for the transfer. *)
Theorem start_transfer_to_submission_preflight_failure
    (crypto : Account) (self : EthereumClient) (db : gmap Z Z)
    (request : TransferToSubmissionStartRequest) (e : exn) :
  prepare_transfer_to_submission crypto self request = Raise e ->
  fst (start_transfer_to_submission crypto self db request) = db
  /\ exists e', snd (start_transfer_to_submission crypto self db request)
                = Raise e'.
Proof.
  intros Hprepare. unfold start_transfer_to_submission.
  destruct (negb _); [split; [reflexivity | eauto] |].
  unfold start_transfer_to_submission_body. rewrite Hprepare.
  split; [reflexivity |]. destruct e; cbn; eauto.
Qed.

Lemma start_transfer_to_submission_preflight_failure_witness :
  let self :=
    demo_client 10
      (demo_nodes [Ok 10] (Ok [])
         (Raise (ContractLogicError "execution reverted")) demo_chain)
      (Ok "tx") in
  fst (start_transfer_to_submission toy_account self ∅ demo_request) = ∅
  /\ exists e',
       snd (start_transfer_to_submission toy_account self ∅ demo_request)
       = Raise e'.
Proof.
  refine (start_transfer_to_submission_preflight_failure toy_account _ ∅
            demo_request (ContractLogicError "execution reverted") _).
  vm_compute. reflexivity.
Defined.

(** X12: a submission that returns a response was made for a transfer
    bound for the client's blockchain, answers with the Hub and Forwarder
    addresses of the configuration, and leaves a nonce stored for the
    internal transfer id. *)
Theorem start_transfer_to_submission_Ok
    (crypto : Account) (self : EthereumClient) (db : gmap Z Z)
    (request : TransferToSubmissionStartRequest)
    (response : TransferToSubmissionStartResponse) :
  snd (start_transfer_to_submission crypto self db request) = Ok response ->
  eventual_destination_blockchain (incoming_transfer request) = get_blockchain
  /\ destination_hub_address response = hub (config self)
  /\ destination_forwarder_address response = forwarder (config self)
  /\ is_Some (fst (start_transfer_to_submission crypto self db request)
              !! internal_transfer_id request).
Proof.
  unfold start_transfer_to_submission.
  destruct (Blockchain_eqb _ get_blockchain) eqn:Hguard; cbn [negb];
    [| discriminate].
  apply Blockchain_eqb_eq in Hguard.
  unfold start_transfer_to_submission_body.
  destruct (prepare_transfer_to_submission crypto self request)
    as [[[nc ocr] signature] | e]; [| destruct e; discriminate].
  unfold __submit_transfer_to_request.
  destruct (__get_nonce self db nc (internal_transfer_id request))
    as [db1 [nonce | e]] eqn:Hnonce; [| destruct e; discriminate].
  apply get_nonce_stored in Hnonce.
  destruct (start_transaction_submission _ _ _) as [tx | e].
  - cbn. intros [= <-]. cbn. unfold read_transfer_nonce in Hnonce.
    repeat split; eauto.
  - destruct e; cbn; discriminate.
Qed.

Lemma start_transfer_to_submission_Ok_witness :
  let self :=
    demo_client 10 (demo_nodes [Ok 10] (Ok []) (Ok tt) demo_chain)
      (Ok "tx") in
  is_Some (fst (start_transfer_to_submission toy_account self ∅ demo_request)
           !! internal_transfer_id demo_request).
Proof.
  intros self.
  refine (proj2 (proj2 (proj2
            (start_transfer_to_submission_Ok toy_account self ∅ demo_request
               {| internal_transaction_id := "tx";
                  destination_hub_address := address_1;
                  destination_forwarder_address := address_2 |} _)))).
  vm_compute. reflexivity.
Defined.

(** X13: the nonce of the next attempt.  After a submission rejected
    with a nonce-too-low or an underpriced error the next attempt for the
    same transfer takes the pending transaction count the nodes then
    report; after any other rejection it takes the nonce of the rejected
    attempt again, whatever the nodes report. *)
Theorem get_nonce_after_rejection
    (self : EthereumClient) (db db1 : gmap Z Z)
    (node_connections next_connections : NodeConnections)
    (internal_transfer_id nonce count : Z)
    (on_chain_request : _OnChainTransferToRequest) (signature : bytes)
    (e : exn) :
  __get_nonce self db node_connections internal_transfer_id
  = (db1, Ok nonce) ->
  start_transaction_submission (utilities self)
    (transfer_to_submission_request self on_chain_request signature nonce)
    node_connections
  = Raise e ->
  get_maximum_result
    (get_transaction_count next_connections (address self))
  = Ok count ->
  snd (__get_nonce self
         (fst (__submit_transfer_to_request self db node_connections
                 internal_transfer_id on_chain_request signature))
         next_connections internal_transfer_id)
  = Ok (if is_retry_error e then count else nonce).
Proof.
  intros Hnonce Hsubmit Hcount.
  pose proof (get_nonce_stored _ _ _ _ _ _ Hnonce) as Hstored.
  unfold read_transfer_nonce in Hstored.
  unfold __submit_transfer_to_request. rewrite Hnonce, Hsubmit.
  unfold __get_nonce. rewrite Hcount.
  unfold update_transfer_nonce, read_transfer_nonce, reset_transfer_nonce.
  destruct e; cbn [fst is_retry_error];
    rewrite ?lookup_delete_eq, ?Hstored, ?lookup_insert_eq; reflexivity.
Qed.

Lemma get_nonce_after_rejection_witness :
  let nodes := demo_nodes [Ok 10] (Ok []) (Ok tt) demo_chain in
  let self := demo_client 10 nodes (Raise TransactionNonceTooLowError) in
  snd (__get_nonce self
         (fst (__submit_transfer_to_request self {[ 1 := 4 ]} nodes 1
                 (on_chain_transfer_to_request demo_request) [Byte.x01]))
         nodes 1)
  = Ok 9.
Proof.
  refine (get_nonce_after_rejection
            (demo_client 10 (demo_nodes [Ok 10] (Ok []) (Ok tt) demo_chain)
               (Raise TransactionNonceTooLowError))
            {[ 1 := 4 ]} {[ 1 := 4 ]}
            (demo_nodes [Ok 10] (Ok []) (Ok tt) demo_chain)
            (demo_nodes [Ok 10] (Ok []) (Ok tt) demo_chain)
            1 4 9 (on_chain_transfer_to_request demo_request) [Byte.x01]
            TransactionNonceTooLowError _ _ _).
  - reflexivity.
  - reflexivity.
  - reflexivity.
Defined.

(** ** Fields the message does not tell apart *)

(** X14: the packed encoding writes a string without its length, so
    the message does not fix where the source transaction id ends: with the
    source transfer id 0, a NUL character moved from the front of the sender
    address to the source transaction id gives the same message (or the
    same failure), whatever the other fields are. *)
Theorem create_transfer_to_message_shifted_character
    (source_blockchain destination_blockchain : Blockchain)
    (sender_address recipient_address source_token_address
       destination_token_address : string)
    (amount validator_nonce : Z)
    (hub_address forwarder_address pan_token_address : string) :
  create_transfer_to_message source_blockchain destination_blockchain
    EmptyString 0 (String "000" sender_address) recipient_address
    source_token_address destination_token_address amount validator_nonce
    hub_address forwarder_address pan_token_address
  = create_transfer_to_message source_blockchain destination_blockchain
      (String "000" EmptyString) 0 sender_address recipient_address
      source_token_address destination_token_address amount validator_nonce
      hub_address forwarder_address pan_token_address.
Proof.
  unfold create_transfer_to_message, solidity_keccak,
    transfer_to_message_types.
  cbn [length Nat.eqb zip zip_with mapM hex_encode_abi_type].
  rewrite !Blockchain_value_nonneg.
  cbn [mbind result_bind mret result_ret Z.leb Z.compare].
  destruct (is_checksum_address recipient_address); [| reflexivity].
  cbn [mbind result_bind mret result_ret].
  destruct (is_checksum_address destination_token_address); [| reflexivity].
  cbn [mbind result_bind mret result_ret].
  destruct (0 <=? amount); [| reflexivity].
  cbn [mbind result_bind mret result_ret].
  destruct (0 <=? validator_nonce); [| reflexivity].
  cbn [mbind result_bind mret result_ret].
  destruct (is_checksum_address hub_address); [| reflexivity].
  cbn [mbind result_bind mret result_ret].
  destruct (is_checksum_address forwarder_address); [| reflexivity].
  cbn [mbind result_bind mret result_ret].
  destruct (is_checksum_address pan_token_address); [| reflexivity].
  cbn [mbind result_bind mret result_ret String.concat].
  do 3 f_equal.
Qed.

Example create_transfer_to_message_shifted_character_built :
  match create_transfer_to_message BNB_CHAIN ETHEREUM EmptyString 0
          (String "000" "abc") address_1 address_2 address_1 1000 5
          address_1 address_2 address_1 with
  | Ok _ => True
  | Raise _ => False
  end.
Proof. vm_compute. exact I. Qed.

(** ** The activity of a token *)

(** X15: is_token_active returns a value exactly when the Hub answers
    with a record of two fields of which the first is a boolean, and the
    value is that boolean; for a record of any other shape it returns no
    value. *)
Theorem is_token_active_Ok
    (self : EthereumClient) (token_address : string) (active : bool) :
  is_token_active self token_address = Ok active <->
  exists node_connections second,
    __create_node_connections self = Ok node_connections
    /\ getTokenRecord node_connections (_create_hub_contract self None)
         token_address
       = Ok [PyBool active; second].
Proof.
  unfold is_token_active. split.
  - intros H.
    destruct (is_token_active_body self token_address) as [b | e] eqn:Hbody;
      [| destruct e; discriminate H].
    injection H as ->. unfold is_token_active_body in Hbody.
    apply bind_Ok in Hbody as (nc & Hnc & Hbody).
    apply bind_Ok in Hbody as (record & Hrecord & Hbody).
    apply bind_Ok in Hbody as (u & Hlen & Hbody).
    apply assert_Ok, Nat.eqb_eq in Hlen.
    destruct record as [| [b | |] [| second [| third record]]];
      try discriminate Hlen; try discriminate Hbody.
    injection Hbody as ->. eauto.
  - intros (nc & second & Hnc & Hrecord).
    unfold is_token_active_body. rewrite Hnc. cbn [mbind result_bind].
    rewrite Hrecord. reflexivity.
Qed.
